(** * Hand tracking module: openness, orientation basis and temporal filter

    A shallow embedding of the shared hand-tracking module
    (src/unnamed/part_000: [calculateHandOpenness], [calculateHandRotation],
    [onHandResults], [updateHandTracking] and the accessors), followed by the
    properties stated about it.

    Modelling conventions.
    - JavaScript numbers are modelled as real numbers: every property below is
      a statement of exact arithmetic.  A division whose divisor is zero
      leaves the reals (JavaScript yields an infinity or NaN there); the model
      stops with [NonFinite] at such a division, and [openness_finite] shows
      that [calculateHandOpenness] never gets there.
    - Reading a property of [undefined] raises a TypeError in JavaScript; the
      model stops with [TypeError].
    - A landmark's [z] may be missing, which is what [z || 0] in the source
      provides for.
    - three.js is an external library.  Its [Vector3] operations are written
      out (they are what the orientation basis is made of); its quaternion
      type, [slerp] and the matrix-to-quaternion conversion are taken as
      parameters of the development. *)

From Stdlib Require Import Reals Lra Lia List String Bool.
Import ListNotations.

Local Open Scope R_scope.

(** ** Completions of JavaScript computations *)

Inductive Completion (A : Type) : Type :=
| Normal (a : A)
| TypeError
| NonFinite.

Arguments Normal {A} a.
Arguments TypeError {A}.
Arguments NonFinite {A}.

Definition bind {A B : Type} (c : Completion A) (k : A -> Completion B)
  : Completion B :=
  match c with
  | Normal a => k a
  | TypeError => TypeError
  | NonFinite => NonFinite
  end.

Notation "x <- c ;; k" := (bind c (fun x => k))
  (at level 61, c at next level, right associativity).

(** [o.p] where [o] may be [undefined]. *)
Definition deref {A : Type} (o : option A) : Completion A :=
  match o with
  | Some a => Normal a
  | None => TypeError
  end.

(** [a / b] on finite numbers. *)
Definition jsdiv (a b : R) : Completion R :=
  if Req_dec_T b 0 then NonFinite else Normal (a / b).

(** [v || 0] for a coordinate that may be missing. *)
Definition orZero (v : option R) : R :=
  match v with
  | Some r => r
  | None => 0
  end.

(** ** Landmarks *)

Record Landmark : Type := mkLandmark {
  lx : R;
  ly : R;
  lz : option R
}.

(** [landmarks[i]]: [undefined] outside the array. *)
Definition at_ (landmarks : list Landmark) (i : nat) : option Landmark :=
  nth_error landmarks i.

(** Euclidean distance between two landmarks, a missing depth counting as 0. *)
Definition distance (a b : Landmark) : R :=
  sqrt ((lx a - lx b) * (lx a - lx b)
        + (ly a - ly b) * (ly a - ly b)
        + (orZero (lz a) - orZero (lz b)) * (orZero (lz a) - orZero (lz b))).

(** ** calculateHandOpenness *)

Record Finger : Type := mkFinger {
  tip : option Landmark;
  base : option Landmark
}.

Definition epsilon : R := 0.001.
Definition minRatio : R := 0.45.
Definition maxRatio : R := 0.85.

(** The hand size reference: wrist to middle MCP. *)
Definition handSizeOf (wrist middleMCP : Landmark) : R :=
  let refDx := lx middleMCP - lx wrist in
  let refDy := ly middleMCP - ly wrist in
  let refDz := orZero (lz middleMCP) - orZero (lz wrist) in
  sqrt (refDx * refDx + refDy * refDy + refDz * refDz).

(** Fingertips and their corresponding base joints. *)
Definition fingersOf (landmarks : list Landmark) : list Finger :=
  [ mkFinger (at_ landmarks 4) (at_ landmarks 2);     (* Thumb *)
    mkFinger (at_ landmarks 8) (at_ landmarks 5);     (* Index *)
    mkFinger (at_ landmarks 12) (at_ landmarks 9);    (* Middle *)
    mkFinger (at_ landmarks 16) (at_ landmarks 13);   (* Ring *)
    mkFinger (at_ landmarks 20) (at_ landmarks 17) ]. (* Pinky *)

(** One turn of the loop body: the ratio added to [totalRatio]. *)
Definition fingerRatio (handSize : R) (finger : Finger) : Completion R :=
  t <- deref (tip finger) ;;
  b <- deref (base finger) ;;
  let dx := lx t - lx b in
  let dy := ly t - ly b in
  let dz := orZero (lz t) - orZero (lz b) in
  let fingerLength := sqrt (dx * dx + dy * dy + dz * dz) in
  jsdiv fingerLength handSize.

(** [for (const finger of fingers) { ... totalRatio += ... }] *)
Fixpoint sumRatios (handSize : R) (fingers : list Finger) (totalRatio : R)
  : Completion R :=
  match fingers with
  | [] => Normal totalRatio
  | finger :: rest =>
      r <- fingerRatio handSize finger ;;
      sumRatios handSize rest (totalRatio + r)
  end.

Definition calculateHandOpenness (landmarks : list Landmark) : Completion R :=
  wrist <- deref (at_ landmarks 0) ;;
  middleMCP <- deref (at_ landmarks 9) ;;
  let handSize := handSizeOf wrist middleMCP in
  if Rlt_dec handSize epsilon then Normal 0
  else
    let fingers := fingersOf landmarks in
    totalRatio <- sumRatios handSize fingers 0 ;;
    avgRatio <- jsdiv totalRatio (INR (List.length fingers)) ;;
    normalized <- jsdiv (avgRatio - minRatio) (maxRatio - minRatio) ;;
    Normal (Rmax 0 (Rmin 1 normalized)).


(** ** drawHandLandmarks

    The canvas itself is not modelled; what is kept of the preview drawing is
    which landmarks it reads, since reading a coordinate of a missing landmark
    stops the frame callback. *)

Definition connections : list (nat * nat) :=
  [ (0, 1); (1, 2); (2, 3); (3, 4);          (* Thumb *)
    (0, 5); (5, 6); (6, 7); (7, 8);          (* Index *)
    (0, 9); (9, 10); (10, 11); (11, 12);     (* Middle *)
    (0, 13); (13, 14); (14, 15); (15, 16);   (* Ring *)
    (0, 17); (17, 18); (18, 19); (19, 20);   (* Pinky *)
    (5, 9); (9, 13); (13, 17) ]%nat.         (* Palm *)

Fixpoint drawConnections (landmarks : list Landmark) (cs : list (nat * nat))
  : Completion unit :=
  match cs with
  | [] => Normal tt
  | (start, end_) :: rest =>
      _ <- deref (at_ landmarks start) ;;
      _ <- deref (at_ landmarks end_) ;;
      drawConnections landmarks rest
  end.

Definition drawHandLandmarks (landmarks : list Landmark) : Completion unit :=
  drawConnections landmarks connections.

(** ** three.js Vector3 *)

Record Vector3 : Type := mkVector3 {
  vx : R;
  vy : R;
  vz : R
}.

Definition subVectors (a b : Vector3) : Vector3 :=
  mkVector3 (vx a - vx b) (vy a - vy b) (vz a - vz b).

Definition dot (a b : Vector3) : R :=
  vx a * vx b + vy a * vy b + vz a * vz b.

Definition length (v : Vector3) : R :=
  sqrt (vx v * vx v + vy v * vy v + vz v * vz v).

Definition multiplyScalar (v : Vector3) (s : R) : Vector3 :=
  mkVector3 (vx v * s) (vy v * s) (vz v * s).

Definition divideScalar (v : Vector3) (s : R) : Vector3 :=
  multiplyScalar v (1 / s).

(** [divideScalar(length() || 1)]: the zero vector is left as it is. *)
Definition normalize (v : Vector3) : Vector3 :=
  let l := length v in
  divideScalar v (if Req_dec_T l 0 then 1 else l).

Definition crossVectors (a b : Vector3) : Vector3 :=
  mkVector3 (vy a * vz b - vz a * vy b)
            (vz a * vx b - vx a * vz b)
            (vx a * vy b - vy a * vx b).

(** ** calculateHandRotation: the basis *)

(** [new THREE.Vector3(l.x - 0.5, -(l.y - 0.5), l.z || 0)] *)
Definition toVector3 (l : Landmark) : Vector3 :=
  mkVector3 (lx l - 0.5) (- (ly l - 0.5)) (orZero (lz l)).

Record Basis : Type := mkBasis {
  handRight : Vector3;
  handUp : Vector3;
  handForward : Vector3
}.

(** The three vectors [makeBasis] receives, from the four vectors built of
    the landmarks. *)
Definition basisOf (wrist indexMCP pinkyMCP middleMCP : Vector3) : Basis :=
  let handUp := normalize (subVectors middleMCP wrist) in
  let handRight := normalize (subVectors indexMCP pinkyMCP) in
  let handForward := normalize (crossVectors handRight handUp) in
  let handRight := normalize (crossVectors handUp handForward) in
  mkBasis handRight handUp handForward.

Definition handBasis (landmarks : list Landmark) : Completion Basis :=
  l0 <- deref (at_ landmarks 0) ;;
  l5 <- deref (at_ landmarks 5) ;;
  l17 <- deref (at_ landmarks 17) ;;
  l9 <- deref (at_ landmarks 9) ;;
  Normal (basisOf (toVector3 l0) (toVector3 l5) (toVector3 l17) (toVector3 l9)).

(** ** Vocabulary of the statements *)

Definition origin : Landmark := mkLandmark 0 0 None.

(** The landmark of a given MediaPipe index, for landmark sets that have it
    ([origin] stands in elsewhere; the statements use it on 21-point sets). *)
Definition pt (landmarks : list Landmark) (i : nat) : Landmark :=
  nth i landmarks origin.

(** The scale reference: the distance from the wrist (index 0) to the
    middle-finger base knuckle (index 9). *)
Definition scaleReference (landmarks : list Landmark) : R :=
  distance (pt landmarks 9) (pt landmarks 0).

(** Extension ratio of a finger given by its tip and base indices. *)
Definition extensionRatio (landmarks : list Landmark) (tipIx baseIx : nat) : R :=
  distance (pt landmarks tipIx) (pt landmarks baseIx) / scaleReference landmarks.

Definition clamp01 (v : R) : R := Rmax 0 (Rmin 1 v).

Definition inUnit (v : R) : Prop := 0 <= v <= 1.

(** Openness as the mean of the five extension ratios, remapped from
    [minRatio, maxRatio] and clamped, the thumb being measured from the
    landmark [thumbBase]. *)
Definition opennessFrom (thumbBase : nat) (landmarks : list Landmark) : R :=
  let avg := (extensionRatio landmarks 4 thumbBase
              + extensionRatio landmarks 8 5
              + extensionRatio landmarks 12 9
              + extensionRatio landmarks 16 13
              + extensionRatio landmarks 20 17) / 5 in
  clamp01 ((avg - minRatio) / (maxRatio - minRatio)).

(** Scaling a landmark by [k] about the point [w], on the coordinates the
    module reads (a missing depth reads as 0). *)
Definition scaleAbout (k : R) (w p : Landmark) : Landmark :=
  mkLandmark (lx w + k * (lx p - lx w))
             (ly w + k * (ly p - ly w))
             (Some (orZero (lz w) + k * (orZero (lz p) - orZero (lz w)))).

(** Scaling every landmark of a set about its wrist. *)
Definition scaleLandmarks (k : R) (landmarks : list Landmark) : list Landmark :=
  map (scaleAbout k (pt landmarks 0)) landmarks.

Definition zeroVector : Vector3 := mkVector3 0 0 0.

(** A right-handed orthonormal triple. *)
Definition orthonormal (b : Basis) : Prop :=
  dot (handRight b) (handUp b) = 0
  /\ dot (handRight b) (handForward b) = 0
  /\ dot (handUp b) (handForward b) = 0
  /\ length (handRight b) = 1
  /\ length (handUp b) = 1
  /\ length (handForward b) = 1
  /\ crossVectors (handRight b) (handUp b) = handForward b.

(** The first entry of the [fingers] array. *)
Definition thumbOf (landmarks : list Landmark) : Finger :=
  hd (mkFinger None None) (fingersOf landmarks).

(** ** Sample landmark sets *)

(** A landmark on the x axis of the image, without depth. *)
Definition onAxis (a : R) : Landmark := mkLandmark a 0 None.

(** A hand whose fingers are all stretched along the x axis: every finger as
    long as the palm reference (wrist at 0, middle MCP at 1). *)
Definition spreadHand : list Landmark :=
  [ onAxis 0;                                      (* 0 wrist *)
    onAxis 0; onAxis 0; onAxis 1; onAxis 1;        (* 1-4 thumb *)
    onAxis 0; onAxis 0; onAxis 0; onAxis 1;        (* 5-8 index *)
    onAxis 1; onAxis 1; onAxis 1; onAxis 2;        (* 9-12 middle *)
    onAxis 0; onAxis 0; onAxis 0; onAxis 1;        (* 13-16 ring *)
    onAxis 0; onAxis 0; onAxis 0; onAxis 1 ].      (* 17-20 pinky *)

(** All 21 landmarks on one point. *)
Definition collapsedHand : list Landmark := repeat (onAxis 0) 21.

(** A hand seen flat, upright in the image: wrist at the centre, middle MCP
    straight above it, index MCP and pinky MCP to its right and left. *)
Definition uprightHand : list Landmark :=
  let c := mkLandmark 0.5 0.5 None in
  [ c; c; c; c; c;
    mkLandmark 1 0.5 None; c; c; c;       (* 5 index MCP *)
    mkLandmark 0.5 0 None; c; c; c;       (* 9 middle MCP *)
    c; c; c; c;
    mkLandmark 0 0.5 None; c; c; c ].     (* 17 pinky MCP *)

(** ** Module state, callbacks and the frame/tick operations *)

(** A registered callback is known by its identity only: what a consumer does
    inside it is outside the module. *)
Definition Callback : Type := nat.

(** The detector's per-frame result: the landmark sets and the handedness
    labels, either of which may be missing. *)
Record Results : Type := mkResults {
  multiHandLandmarks : option (list (list Landmark));
  multiHandedness : option (list string)
}.

Definition SMOOTHING : R := 0.12.

Section HandTracking.

(** three.js: whether [THREE] is defined, and its quaternions. *)
Variable THREE_defined : bool.
Variable Quaternion : Type.
(** [new THREE.Quaternion()] *)
Variable newQuaternion : Quaternion.
(** [q.slerp(qb, t)]: the value [q] holds afterwards. *)
Variable slerp : Quaternion -> Quaternion -> R -> Quaternion.
(** [makeBasis(x, y, z)] followed by [setFromRotationMatrix]. *)
Variable setFromBasis : Vector3 -> Vector3 -> Vector3 -> Quaternion.

Definition calculateHandRotation (landmarks : list Landmark)
  : Completion (option Quaternion) :=
  if negb THREE_defined then Normal None
  else
    b <- handBasis landmarks ;;
    Normal (Some (setFromBasis (handRight b) (handUp b) (handForward b))).

Record State : Type := mkState {
  _handOpenness : R;
  _targetHandOpenness : R;
  _smoothedOpenness : R;
  _isHandDetected : bool;
  _handedness : string;
  _handRotation : option Quaternion;
  _targetHandRotation : option Quaternion;
  _smoothedHandRotation : option Quaternion;
  _landmarks : option (list Landmark);
  _showCameraFeed : bool;
  _onHandUpdate : option Callback;
  _onHandLost : option Callback
}.

Definition set_handOpenness (v : R) (st : State) : State :=
  mkState v (_targetHandOpenness st) (_smoothedOpenness st) (_isHandDetected st) (_handedness st) (_handRotation st) (_targetHandRotation st) (_smoothedHandRotation st) (_landmarks st) (_showCameraFeed st) (_onHandUpdate st) (_onHandLost st).

Definition set_targetHandOpenness (v : R) (st : State) : State :=
  mkState (_handOpenness st) v (_smoothedOpenness st) (_isHandDetected st) (_handedness st) (_handRotation st) (_targetHandRotation st) (_smoothedHandRotation st) (_landmarks st) (_showCameraFeed st) (_onHandUpdate st) (_onHandLost st).

Definition set_smoothedOpenness (v : R) (st : State) : State :=
  mkState (_handOpenness st) (_targetHandOpenness st) v (_isHandDetected st) (_handedness st) (_handRotation st) (_targetHandRotation st) (_smoothedHandRotation st) (_landmarks st) (_showCameraFeed st) (_onHandUpdate st) (_onHandLost st).

Definition set_isHandDetected (v : bool) (st : State) : State :=
  mkState (_handOpenness st) (_targetHandOpenness st) (_smoothedOpenness st) v (_handedness st) (_handRotation st) (_targetHandRotation st) (_smoothedHandRotation st) (_landmarks st) (_showCameraFeed st) (_onHandUpdate st) (_onHandLost st).

Definition set_handedness (v : string) (st : State) : State :=
  mkState (_handOpenness st) (_targetHandOpenness st) (_smoothedOpenness st) (_isHandDetected st) v (_handRotation st) (_targetHandRotation st) (_smoothedHandRotation st) (_landmarks st) (_showCameraFeed st) (_onHandUpdate st) (_onHandLost st).

Definition set_handRotation (v : option Quaternion) (st : State) : State :=
  mkState (_handOpenness st) (_targetHandOpenness st) (_smoothedOpenness st) (_isHandDetected st) (_handedness st) v (_targetHandRotation st) (_smoothedHandRotation st) (_landmarks st) (_showCameraFeed st) (_onHandUpdate st) (_onHandLost st).

Definition set_targetHandRotation (v : option Quaternion) (st : State) : State :=
  mkState (_handOpenness st) (_targetHandOpenness st) (_smoothedOpenness st) (_isHandDetected st) (_handedness st) (_handRotation st) v (_smoothedHandRotation st) (_landmarks st) (_showCameraFeed st) (_onHandUpdate st) (_onHandLost st).

Definition set_smoothedHandRotation (v : option Quaternion) (st : State) : State :=
  mkState (_handOpenness st) (_targetHandOpenness st) (_smoothedOpenness st) (_isHandDetected st) (_handedness st) (_handRotation st) (_targetHandRotation st) v (_landmarks st) (_showCameraFeed st) (_onHandUpdate st) (_onHandLost st).

Definition set_landmarks (v : option (list Landmark)) (st : State) : State :=
  mkState (_handOpenness st) (_targetHandOpenness st) (_smoothedOpenness st) (_isHandDetected st) (_handedness st) (_handRotation st) (_targetHandRotation st) (_smoothedHandRotation st) v (_showCameraFeed st) (_onHandUpdate st) (_onHandLost st).

Definition set_showCameraFeed (v : bool) (st : State) : State :=
  mkState (_handOpenness st) (_targetHandOpenness st) (_smoothedOpenness st) (_isHandDetected st) (_handedness st) (_handRotation st) (_targetHandRotation st) (_smoothedHandRotation st) (_landmarks st) v (_onHandUpdate st) (_onHandLost st).

Definition set_onHandUpdate (v : option Callback) (st : State) : State :=
  mkState (_handOpenness st) (_targetHandOpenness st) (_smoothedOpenness st) (_isHandDetected st) (_handedness st) (_handRotation st) (_targetHandRotation st) (_smoothedHandRotation st) (_landmarks st) (_showCameraFeed st) v (_onHandLost st).

Definition set_onHandLost (v : option Callback) (st : State) : State :=
  mkState (_handOpenness st) (_targetHandOpenness st) (_smoothedOpenness st) (_isHandDetected st) (_handedness st) (_handRotation st) (_targetHandRotation st) (_smoothedHandRotation st) (_landmarks st) (_showCameraFeed st) (_onHandUpdate st) v.

(** What [_onHandUpdate] is called with. *)
Record Snapshot : Type := mkSnapshot {
  openness : R;
  rotation : option Quaternion;
  landmarks : option (list Landmark)
}.

Inductive Call : Type :=
| HandUpdate (cb : Callback) (data : Snapshot)
| HandLost (cb : Callback).

(** A run of module code: how it completed, the state it left, and the
    callbacks it invoked, in order.  An abrupt completion keeps the
    assignments made before it. *)
Record Run (A : Type) : Type := mkRun {
  completion : Completion A;
  final : State;
  calls : list Call
}.

Arguments mkRun {A}.
Arguments completion {A}.
Arguments final {A}.
Arguments calls {A}.

Definition M (A : Type) : Type := State -> Run A.

Definition ret {A : Type} (a : A) : M A :=
  fun st => mkRun (Normal a) st [].

Definition seq {A B : Type} (m : M A) (k : A -> M B) : M B :=
  fun st =>
    let r := m st in
    match completion r with
    | Normal a =>
        let r' := k a (final r) in
        mkRun (completion r') (final r') (calls r ++ calls r')
    | TypeError => mkRun TypeError (final r) (calls r)
    | NonFinite => mkRun NonFinite (final r) (calls r)
    end.

Definition get : M State :=
  fun st => mkRun (Normal st) st [].

Definition assign (f : State -> State) : M unit :=
  fun st => mkRun (Normal tt) (f st) [].

Definition lift {A : Type} (c : Completion A) : M A :=
  fun st => mkRun c st [].

Definition invoke (c : Call) : M unit :=
  fun st => mkRun (Normal tt) st [c].

Notation "x <~ m ;; k" := (seq m (fun x => k))
  (at level 61, m at next level, right associativity).
Notation "m ;;; k" := (seq m (fun _ => k))
  (at level 61, right associativity).

(** The state when the script has been loaded. *)
Definition initialState : State :=
  mkState 0 0 0 false "Right" None None None None false None None.

Definition initQuaternions : M unit :=
  if THREE_defined then
    assign (set_handRotation (Some newQuaternion)) ;;;
    assign (set_targetHandRotation (Some newQuaternion)) ;;;
    assign (set_smoothedHandRotation (Some newQuaternion))
  else ret tt.

(** [results.multiHandLandmarks && results.multiHandLandmarks.length > 0],
    with the first hand when it holds. *)
Definition firstHand (results : Results) : option (list Landmark) :=
  match multiHandLandmarks results with
  | Some (hand :: _) => Some hand
  | _ => None
  end.

(** [results.multiHandedness && results.multiHandedness.length > 0], with the
    first label when it holds. *)
Definition firstLabel (results : Results) : option string :=
  match multiHandedness results with
  | Some (label :: _) => Some label
  | _ => None
  end.

Definition onHandResults (results : Results) : M unit :=
  match firstHand results with
  | Some hand =>
      assign (set_isHandDetected true) ;;;
      assign (set_landmarks (Some hand)) ;;;
      match firstLabel results with
      | Some label => assign (set_handedness label)
      | None => ret tt
      end ;;;
      lift (drawHandLandmarks hand) ;;;
      o <~ lift (calculateHandOpenness hand) ;;
      assign (set_targetHandOpenness o) ;;;
      q <~ lift (calculateHandRotation hand) ;;
      assign (set_targetHandRotation q) ;;;
      st <~ get ;;
      match _onHandUpdate st with
      | Some cb =>
          invoke (HandUpdate cb (mkSnapshot (_handOpenness st)
                                            (_handRotation st)
                                            (_landmarks st)))
      | None => ret tt
      end
  | None =>
      assign (set_isHandDetected false) ;;;
      assign (set_landmarks None) ;;;
      assign (set_targetHandOpenness 0) ;;;
      st <~ get ;;
      match _onHandLost st with
      | Some cb => invoke (HandLost cb)
      | None => ret tt
      end
  end.

Definition updateHandTracking : M unit :=
  (* Smooth openness *)
  assign (fun st =>
    set_smoothedOpenness
      (_smoothedOpenness st
       + (_targetHandOpenness st - _smoothedOpenness st) * SMOOTHING) st) ;;;
  assign (fun st => set_handOpenness (_smoothedOpenness st) st) ;;;
  (* Smooth rotation *)
  st <~ get ;;
  match _isHandDetected st, _targetHandRotation st, _smoothedHandRotation st with
  | true, Some target, Some smoothed =>
      let smoothed' := slerp smoothed target (SMOOTHING * 1.5) in
      assign (set_smoothedHandRotation (Some smoothed')) ;;;
      _ <~ lift (deref (_handRotation st)) ;;
      assign (set_handRotation (Some smoothed'))
  | _, _, _ => ret tt
  end.

Definition setOnHandUpdate (callback : option Callback) : M unit :=
  assign (set_onHandUpdate callback).

Definition setOnHandLost (callback : option Callback) : M unit :=
  assign (set_onHandLost callback).

Definition toggleCameraFeed : M bool :=
  assign (fun st => set_showCameraFeed (negb (_showCameraFeed st)) st) ;;;
  st <~ get ;;
  ret (_showCameraFeed st).

(** Getters *)
Definition getHandOpenness (st : State) : R := _handOpenness st.
Definition getTargetOpenness (st : State) : R := _targetHandOpenness st.
Definition getHandRotation (st : State) : option Quaternion := _handRotation st.
Definition isHandDetected (st : State) : bool := _isHandDetected st.
Definition getLandmarks (st : State) : option (list Landmark) := _landmarks st.
Definition getHandedness (st : State) : string := _handedness st.

(** ** Runs of the module

    What reaches the module from outside: the initialisation, the detector's
    frames, the consumers' ticks and their registrations. *)

Inductive Event : Type :=
| Init
| Frame (results : Results)
| Tick
| SetOnHandUpdate (callback : option Callback)
| SetOnHandLost (callback : option Callback)
| ToggleCameraFeed.

Definition step (st : State) (e : Event) : State :=
  match e with
  | Init => final (initQuaternions st)
  | Frame results => final (onHandResults results st)
  | Tick => final (updateHandTracking st)
  | SetOnHandUpdate cb => final (setOnHandUpdate cb st)
  | SetOnHandLost cb => final (setOnHandLost cb st)
  | ToggleCameraFeed => final (toggleCameraFeed st)
  end.

Definition run (st : State) (es : list Event) : State :=
  fold_left step es st.

Inductive reachable : State -> Prop :=
| reachable_initial : reachable initialState
| reachable_step st e : reachable st -> reachable (step st e).


(** Sample detector results: a spread left hand, and no hand. *)
Definition leftHandResults : Results :=
  mkResults (Some [spreadHand]) (Some ["Left"%string]).

Definition noHandResults : Results :=
  mkResults (Some []) (Some []).

(** The state a frame with a hand leaves before the preview is drawn. *)
Definition ingested (results : Results) (hand : list Landmark) (st : State)
  : State :=
  let st1 := set_landmarks (Some hand) (set_isHandDetected true st) in
  match firstLabel results with
  | Some label => set_handedness label st1
  | None => st1
  end.

(** Whether an event makes the detector's label reach the module: a frame
    with a hand and a handedness entry. *)
Definition reportsHandedness (e : Event) : bool :=
  match e with
  | Frame results =>
      match firstHand results, firstLabel results with
      | Some _, Some _ => true
      | _, _ => false
      end
  | _ => false
  end.

(** The published and the smoothed quaternion exist together. *)
Definition rotationsPaired (st : State) : Prop :=
  _smoothedHandRotation st = None <-> _handRotation st = None.

(** What the accessors publish is the smoothed state. *)
Definition publishedIsSmoothed (st : State) : Prop :=
  _handOpenness st = _smoothedOpenness st
  /\ _handRotation st = _smoothedHandRotation st.

(** [n] update ticks in a row, nothing else in between. *)
Definition ticks (n : nat) (st : State) : State :=
  run st (repeat Tick n).

(** Moving a landmark by the vector (dx, dy, dz), on the coordinates the
    module reads. *)
Definition translate (dx dy dz : R) (p : Landmark) : Landmark :=
  mkLandmark (lx p + dx) (ly p + dy) (Some (orZero (lz p) + dz)).

(** The mean of the five extension ratios the loop adds up. *)
Definition meanRatio (landmarks : list Landmark) : R :=
  (extensionRatio landmarks 4 2
   + extensionRatio landmarks 8 5
   + extensionRatio landmarks 12 9
   + extensionRatio landmarks 16 13
   + extensionRatio landmarks 20 17) / 5.

(** A closed fist: every fingertip on its base joint, the palm reference
    being 1. *)
Definition fistHand : list Landmark :=
  [ onAxis 0;                                      (* 0 wrist *)
    onAxis 0; onAxis 0; onAxis 0; onAxis 0;        (* 1-4 thumb *)
    onAxis 0; onAxis 0; onAxis 0; onAxis 0;        (* 5-8 index *)
    onAxis 1; onAxis 1; onAxis 1; onAxis 1;        (* 9-12 middle *)
    onAxis 0; onAxis 0; onAxis 0; onAxis 0;        (* 13-16 ring *)
    onAxis 0; onAxis 0; onAxis 0; onAxis 0 ].      (* 17-20 pinky *)

(** Detection and stored landmarks go together, and without a detected hand
    the target openness is 0. *)
Definition detectionConsistent (st : State) : Prop :=
  (_isHandDetected st = true <-> _landmarks st <> None)
  /\ (_isHandDetected st = false -> _targetHandOpenness st = 0).

(** ** Consumers: the prism demo's explosion progress (src/unnamed/part_001) *)

Definition easeOutCubic (t : R) : R := 1 - (1 - t) ^ 3.

(** The progress [t] of one fragment in [updatePrism] (and of one particle in
    [updateParticles]), from the published openness and the fragment's
    delay. *)
Definition fragmentProgress (handOpenness delay : R) : Completion R :=
  q <- jsdiv (handOpenness - delay) (1 - delay) ;;
  let delayedOpenness := Rmax 0 q in
  Normal (easeOutCubic (Rmin 1 delayedOpenness)).

(** ** Consumers: the airplane demo's flight controls (src/js/demos/airplane.js) *)

(** [new THREE.Euler().setFromQuaternion(q, 'YXZ')], of three.js. *)
Record Euler : Type := mkEuler {
  ex : R;
  ey : R;
  ez : R
}.

Section Flight.

Variable setFromQuaternionYXZ : Quaternion -> Euler.

(** [THREE.MathUtils.clamp(value, min, max)] *)
Definition clamp (value min max : R) : R := Rmax min (Rmin max value).

Definition rollSensitivity : R := 2.5.
Definition pitchSensitivity : R := 1.5.
Definition maxRoll : R := PI / 3.
Definition maxPitch : R := PI / 4.

Record FlightControls : Type := mkFlightControls {
  targetRoll : R;
  targetPitch : R;
  currentRoll : R;
  currentPitch : R
}.

Definition initialFlightControls : FlightControls := mkFlightControls 0 0 0 0.

Definition updateFlightControls (handRotation : option Quaternion)
           (isHandDetected : bool) (fc : FlightControls) : FlightControls :=
  let '(targetRoll', targetPitch') :=
    match isHandDetected, handRotation with
    | true, Some q =>
        (* Extract euler angles from hand rotation *)
        let euler := setFromQuaternionYXZ q in
        (clamp (- ez euler * rollSensitivity) (- maxRoll) maxRoll,
         clamp (ex euler * pitchSensitivity) (- maxPitch) maxPitch)
    | _, _ =>
        (* Gradually return to level flight *)
        (targetRoll fc * 0.95, targetPitch fc * 0.95)
    end in
  (* Smooth the controls *)
  mkFlightControls targetRoll' targetPitch'
    (currentRoll fc + (targetRoll' - currentRoll fc) * 0.1)
    (currentPitch fc + (targetPitch' - currentPitch fc) * 0.1).

(** The part of the airplane demo's [animate] that concerns the module: the
    rotation and the detection flag are read, the tick runs, the controls are
    updated.  [getRotation] returns the published quaternion object itself,
    which the tick then writes into, so the controls see the rotation as it
    is after the tick; the detection flag is a boolean read before it. *)
Definition animateFlight (st : State) (fc : FlightControls)
  : Completion unit * State * FlightControls :=
  let isHandDetected := isHandDetected st in
  let r := updateHandTracking st in
  match completion r with
  | Normal _ =>
      (Normal tt, final r,
       updateFlightControls (getHandRotation (final r)) isHandDetected fc)
  | TypeError => (TypeError, final r, fc)
  | NonFinite => (NonFinite, final r, fc)
  end.

(** The flight controls after a series of calls, whatever they are given. *)
Definition flightRun (fc : FlightControls)
           (inputs : list (option Quaternion * bool)) : FlightControls :=
  fold_left (fun fc input => updateFlightControls (fst input) (snd input) fc)
            inputs fc.

(** The controls within the roll and pitch limits. *)
Definition withinLimits (fc : FlightControls) : Prop :=
  (- maxRoll <= targetRoll fc <= maxRoll)
  /\ (- maxRoll <= currentRoll fc <= maxRoll)
  /\ (- maxPitch <= targetPitch fc <= maxPitch)
  /\ (- maxPitch <= currentPitch fc <= maxPitch).

(** A call of [updateFlightControls] that takes the levelling branch. *)
Definition withoutHand (input : option Quaternion * bool) : Prop :=
  snd input = false \/ fst input = None.

End Flight.

(** * Properties *)

(** ** Openness: range, finiteness, closed form *)

Lemma jsdiv_nonzero (a b : R) : b <> 0 -> jsdiv a b = Normal (a / b).
Proof.
  intros Hb. unfold jsdiv. destruct (Req_dec_T b 0); [contradiction | reflexivity].
Qed.

Lemma clamp01_range (v : R) : 0 <= clamp01 v <= 1.
Proof.
  unfold clamp01. split.
  - apply Rmax_l.
  - apply Rmax_lub; [lra | apply Rmin_l].
Qed.

Lemma epsilon_pos : 0 < epsilon.
Proof. unfold epsilon. lra. Qed.

Lemma handSizeOf_distance (w m : Landmark) : handSizeOf w m = distance m w.
Proof. reflexivity. Qed.

Lemma distance_nonneg (a b : Landmark) : 0 <= distance a b.
Proof. unfold distance. apply sqrt_pos. Qed.

(** The loop never meets a zero divisor once the reference is positive. *)
Lemma sumRatios_finite (handSize : R) (fingers : list Finger) :
  handSize <> 0 ->
  forall total, sumRatios handSize fingers total <> NonFinite.
Proof.
  intros Hh. induction fingers as [|f rest IH]; intros total; cbn [sumRatios].
  - discriminate.
  - unfold fingerRatio.
    destruct (tip f) as [t|]; cbn [bind deref]; [|discriminate].
    destruct (base f) as [b|]; cbn [bind deref]; [|discriminate].
    rewrite jsdiv_nonzero by assumption. cbn [bind]. apply IH.
Qed.

(** No division of [calculateHandOpenness] has a zero divisor, whatever the
    landmark set. *)
Lemma openness_finite (landmarks : list Landmark) :
  calculateHandOpenness landmarks <> NonFinite.
Proof.
  unfold calculateHandOpenness.
  destruct (at_ landmarks 0) as [w|]; cbn [bind deref]; [|discriminate].
  destruct (at_ landmarks 9) as [m|]; cbn [bind deref]; [|discriminate].
  destruct (Rlt_dec (handSizeOf w m) epsilon) as [Hlt|Hge]; [discriminate|].
  assert (Hh : handSizeOf w m <> 0) by (pose proof epsilon_pos; lra).
  pose proof (sumRatios_finite (handSizeOf w m) (fingersOf landmarks) Hh 0) as Hs.
  destruct (sumRatios (handSizeOf w m) (fingersOf landmarks) 0) as [total| |];
    cbn [bind]; [|discriminate|contradiction].
  assert (H5 : INR (List.length (fingersOf landmarks)) <> 0) by (simpl; lra).
  rewrite jsdiv_nonzero by exact H5. cbn [bind].
  rewrite jsdiv_nonzero by (unfold maxRatio, minRatio; lra). cbn [bind].
  discriminate.
Qed.

(** Whatever [calculateHandOpenness] returns lies in [0,1]. *)
Lemma openness_range (landmarks : list Landmark) (o : R) :
  calculateHandOpenness landmarks = Normal o -> 0 <= o <= 1.
Proof.
  unfold calculateHandOpenness.
  destruct (at_ landmarks 0) as [w|]; cbn [bind deref]; [|discriminate].
  destruct (at_ landmarks 9) as [m|]; cbn [bind deref]; [|discriminate].
  destruct (Rlt_dec (handSizeOf w m) epsilon) as [Hlt|Hge].
  - intros H. injection H as <-. lra.
  - destruct (sumRatios _ _ _) as [total| |]; cbn [bind]; try discriminate.
    destruct (jsdiv total _) as [avg| |]; cbn [bind]; try discriminate.
    destruct (jsdiv (avg - minRatio) _) as [n| |]; cbn [bind]; try discriminate.
    intros H. injection H as <-. apply clamp01_range.
Qed.

(** Taking a 21-point set apart into its landmarks. *)
Ltac explode_landmarks lms H :=
  do 21 (destruct lms as [|? lms]; [discriminate H|]);
  destruct lms; [clear H | discriminate H].

(** On a 21-point set whose reference is not below the threshold, the code
    computes [opennessFrom] with the thumb measured from landmark 2. *)
Lemma openness_closed_form (landmarks : list Landmark) :
  List.length landmarks = 21%nat ->
  epsilon <= scaleReference landmarks ->
  calculateHandOpenness landmarks = Normal (opennessFrom 2 landmarks).
Proof.
  intros Hlen Href.
  explode_landmarks landmarks Hlen.
  unfold scaleReference, pt in Href. simpl in Href.
  unfold calculateHandOpenness. simpl.
  rewrite handSizeOf_distance.
  destruct (Rlt_dec _ epsilon) as [Hlt|_]; [lra|].
  assert (Hh : distance l8 l <> 0) by (pose proof epsilon_pos; lra).
  unfold fingerRatio. simpl.
  repeat (rewrite jsdiv_nonzero by assumption; simpl).
  rewrite jsdiv_nonzero by lra. simpl.
  rewrite jsdiv_nonzero by (unfold maxRatio, minRatio; lra). simpl.
  f_equal. unfold opennessFrom, clamp01, extensionRatio, scaleReference, pt.
  simpl. unfold distance. do 3 f_equal. field. exact Hh.
Qed.

(** ** Degenerate reference *)

(** Only the wrist and the middle MCP are read before the early return: with
    a reference below the threshold the result is 0 whatever else the set
    holds, and the loop with its divisions is not entered. *)
Lemma openness_early_return (landmarks : list Landmark) (w m : Landmark) :
  at_ landmarks 0 = Some w ->
  at_ landmarks 9 = Some m ->
  distance m w < epsilon ->
  calculateHandOpenness landmarks = Normal 0.
Proof.
  intros Hw Hm Hlt. unfold calculateHandOpenness.
  rewrite Hw, Hm. cbn [bind deref]. rewrite handSizeOf_distance.
  destruct (Rlt_dec (distance m w) epsilon); [reflexivity | contradiction].
Qed.

Lemma at_pt (landmarks : list Landmark) (i : nat) :
  (i < List.length landmarks)%nat -> at_ landmarks i = Some (pt landmarks i).
Proof.
  intros Hi. unfold at_, pt. apply nth_error_nth'. exact Hi.
Qed.

(** C5: on a 21-point set whose wrist-to-middle-base distance is below 0.001,
    [calculateHandOpenness] completes normally with exactly 0: it neither
    raises nor reaches a division (a division by a zero reference would show
    as [NonFinite]). *)
Theorem openness_degenerate_zero (landmarks : list Landmark) :
  List.length landmarks = 21%nat ->
  distance (pt landmarks 9) (pt landmarks 0) < epsilon ->
  calculateHandOpenness landmarks = Normal 0.
Proof.
  intros Hlen Hlt.
  apply openness_early_return with (w := pt landmarks 0) (m := pt landmarks 9).
  - apply at_pt. lia.
  - apply at_pt. lia.
  - exact Hlt.
Qed.

Lemma distance_onAxis (a b : R) : distance (onAxis a) (onAxis b) = Rabs (a - b).
Proof.
  unfold distance, onAxis. simpl.
  replace ((a - b) * (a - b) + (0 - 0) * (0 - 0) + (0 - 0) * (0 - 0))
    with (Rsqr (a - b)) by (unfold Rsqr; ring).
  apply sqrt_Rsqr_abs.
Qed.

Lemma openness_degenerate_zero_witness :
  List.length collapsedHand = 21%nat
  /\ distance (pt collapsedHand 9) (pt collapsedHand 0) < epsilon
  /\ calculateHandOpenness collapsedHand = Normal 0.
Proof.
  assert (Hd : distance (pt collapsedHand 9) (pt collapsedHand 0) < epsilon).
  { unfold pt, collapsedHand. simpl. rewrite distance_onAxis.
    replace (0 - 0) with 0 by ring. rewrite Rabs_R0. apply epsilon_pos. }
  split; [reflexivity | split; [exact Hd |]].
  apply (openness_degenerate_zero collapsedHand); [reflexivity | exact Hd].
Defined.

(** ** Finger extension ratios *)

Lemma clamp01_inside (v : R) : 0 <= v <= 1 -> clamp01 v = v.
Proof.
  intros [H0 H1]. unfold clamp01.
  rewrite Rmin_right by exact H1. apply Rmax_right. exact H0.
Qed.

Lemma clamp01_above (v : R) : 1 <= v -> clamp01 v = 1.
Proof.
  intros H1. unfold clamp01.
  rewrite Rmin_left by exact H1. apply Rmax_right. lra.
Qed.

Lemma scaleReference_spreadHand : scaleReference spreadHand = 1.
Proof.
  unfold scaleReference, pt, spreadHand. simpl. rewrite distance_onAxis.
  replace (1 - 0) with 1 by ring. apply Rabs_R1.
Qed.

Lemma extensionRatio_spreadHand_thumb_mcp : extensionRatio spreadHand 4 2 = 1.
Proof.
  unfold extensionRatio. rewrite scaleReference_spreadHand.
  unfold pt, spreadHand. simpl. rewrite distance_onAxis.
  replace (1 - 0) with 1 by ring. rewrite Rabs_R1. lra.
Qed.

Lemma extensionRatio_spreadHand_thumb_ip : extensionRatio spreadHand 4 3 = 0.
Proof.
  unfold extensionRatio. rewrite scaleReference_spreadHand.
  unfold pt, spreadHand. simpl. rewrite distance_onAxis.
  replace (1 - 1) with 0 by ring. rewrite Rabs_R0. lra.
Qed.

Lemma openness_spreadHand : calculateHandOpenness spreadHand = Normal 1.
Proof.
  rewrite openness_closed_form.
  - f_equal. unfold opennessFrom.
    rewrite extensionRatio_spreadHand_thumb_mcp.
    unfold extensionRatio. rewrite scaleReference_spreadHand.
    unfold pt, spreadHand. simpl. rewrite !distance_onAxis.
    replace (1 - 0) with 1 by ring. replace (2 - 1) with 1 by ring.
    rewrite Rabs_R1. apply clamp01_above. unfold minRatio, maxRatio. lra.
  - reflexivity.
  - rewrite scaleReference_spreadHand. unfold epsilon. lra.
Qed.

(** C7: the code does not measure the thumb from its interphalangeal joint.
    On [spreadHand] the ratio the loop computes for the thumb is 1, the tip
    (index 4) being measured from landmark 2, the thumb's MCP joint, whereas
    measured from the interphalangeal joint (index 3) it is 0; the openness
    returned is 1 where the interphalangeal reading gives 0.875. *)
Lemma thumb_base_is_not_index_3 :
  List.length spreadHand = 21%nat
  /\ fingerRatio (scaleReference spreadHand) (thumbOf spreadHand) = Normal 1
  /\ extensionRatio spreadHand 4 3 = 0
  /\ fingerRatio (scaleReference spreadHand) (thumbOf spreadHand)
     <> Normal (extensionRatio spreadHand 4 3)
  /\ calculateHandOpenness spreadHand <> Normal (opennessFrom 3 spreadHand).
Proof.
  assert (Hthumb : fingerRatio (scaleReference spreadHand) (thumbOf spreadHand)
                   = Normal 1).
  { rewrite scaleReference_spreadHand. unfold fingerRatio, thumbOf. simpl.
    rewrite jsdiv_nonzero by lra. f_equal.
    replace ((1 - 0) * (1 - 0) + (0 - 0) * (0 - 0) + (0 - 0) * (0 - 0))
      with 1 by ring.
    rewrite sqrt_1. lra. }
  split; [reflexivity|]. split; [exact Hthumb|].
  split; [exact extensionRatio_spreadHand_thumb_ip|].
  split.
  - rewrite Hthumb, extensionRatio_spreadHand_thumb_ip.
    intros H. injection H as H. lra.
  - rewrite openness_spreadHand. unfold opennessFrom.
    rewrite extensionRatio_spreadHand_thumb_ip.
    unfold extensionRatio. rewrite scaleReference_spreadHand.
    unfold pt, spreadHand. simpl. rewrite !distance_onAxis.
    replace (1 - 0) with 1 by ring. replace (2 - 1) with 1 by ring.
    rewrite Rabs_R1. rewrite clamp01_inside by (unfold minRatio, maxRatio; lra).
    intros H. injection H as H. unfold minRatio, maxRatio in H. lra.
Qed.

(** What the loop computes: on a 21-point set whose reference is at least the
    threshold, the five ratios it adds up are the tip-to-base distances
    divided by the scale reference, for the (tip, base) index pairs (4,2),
    (8,5), (12,9), (16,13), (20,17), and the openness is the clamped
    remapping of their mean. *)
Theorem finger_ratios_from_base_joints (landmarks : list Landmark) :
  List.length landmarks = 21%nat ->
  epsilon <= scaleReference landmarks ->
  map (fingerRatio (scaleReference landmarks)) (fingersOf landmarks)
  = [ Normal (extensionRatio landmarks 4 2);
      Normal (extensionRatio landmarks 8 5);
      Normal (extensionRatio landmarks 12 9);
      Normal (extensionRatio landmarks 16 13);
      Normal (extensionRatio landmarks 20 17) ]
  /\ calculateHandOpenness landmarks = Normal (opennessFrom 2 landmarks).
Proof.
  intros Hlen Href. split; [| apply openness_closed_form; assumption].
  assert (Hh : scaleReference landmarks <> 0) by (pose proof epsilon_pos; lra).
  explode_landmarks landmarks Hlen.
  unfold fingersOf, fingerRatio. cbn [map at_ nth_error tip base bind deref].
  rewrite !jsdiv_nonzero by exact Hh. reflexivity.
Qed.

Lemma finger_ratios_from_base_joints_witness :
  map (fingerRatio (scaleReference spreadHand)) (fingersOf spreadHand)
  = [ Normal (extensionRatio spreadHand 4 2);
      Normal (extensionRatio spreadHand 8 5);
      Normal (extensionRatio spreadHand 12 9);
      Normal (extensionRatio spreadHand 16 13);
      Normal (extensionRatio spreadHand 20 17) ]
  /\ calculateHandOpenness spreadHand = Normal (opennessFrom 2 spreadHand).
Proof.
  apply (finger_ratios_from_base_joints spreadHand).
  - reflexivity.
  - rewrite scaleReference_spreadHand. unfold epsilon. lra.
Defined.

(** ** Scaling about the wrist *)

Lemma distance_scaleAbout (k : R) (w p q : Landmark) :
  0 <= k ->
  distance (scaleAbout k w p) (scaleAbout k w q) = k * distance p q.
Proof.
  intros Hk. unfold distance, scaleAbout. cbn [lx ly lz orZero].
  set (dx := lx p - lx q). set (dy := ly p - ly q).
  set (dz := orZero (lz p) - orZero (lz q)).
  replace (lx w + k * (lx p - lx w) - (lx w + k * (lx q - lx w)))
    with (k * dx) by (unfold dx; ring).
  replace (ly w + k * (ly p - ly w) - (ly w + k * (ly q - ly w)))
    with (k * dy) by (unfold dy; ring).
  replace (orZero (lz w) + k * (orZero (lz p) - orZero (lz w))
           - (orZero (lz w) + k * (orZero (lz q) - orZero (lz w))))
    with (k * dz) by (unfold dz; ring).
  replace (k * dx * (k * dx) + k * dy * (k * dy) + k * dz * (k * dz))
    with (Rsqr k * (dx * dx + dy * dy + dz * dz)) by (unfold Rsqr; ring).
  rewrite sqrt_mult_alt by apply Rle_0_sqr.
  rewrite sqrt_Rsqr by exact Hk. reflexivity.
Qed.

Lemma pt_scaleLandmarks (k : R) (landmarks : list Landmark) (i : nat) :
  (i < List.length landmarks)%nat ->
  pt (scaleLandmarks k landmarks) i
  = scaleAbout k (pt landmarks 0) (pt landmarks i).
Proof.
  intros Hi. unfold pt at 1, scaleLandmarks.
  rewrite nth_indep with (d' := scaleAbout k (pt landmarks 0) origin)
    by (rewrite length_map; exact Hi).
  apply map_nth.
Qed.

Lemma length_scaleLandmarks (k : R) (landmarks : list Landmark) :
  List.length (scaleLandmarks k landmarks) = List.length landmarks.
Proof. unfold scaleLandmarks. apply length_map. Qed.

(** Scaling by [k] multiplies the scale reference by [k]. *)
Lemma scaleReference_scaleLandmarks (k : R) (landmarks : list Landmark) :
  List.length landmarks = 21%nat ->
  0 <= k ->
  scaleReference (scaleLandmarks k landmarks) = k * scaleReference landmarks.
Proof.
  intros Hlen Hk. unfold scaleReference.
  rewrite !pt_scaleLandmarks by lia.
  apply distance_scaleAbout. exact Hk.
Qed.

(** ... and leaves every extension ratio as it was. *)
Lemma extensionRatio_scaleLandmarks (k : R) (landmarks : list Landmark)
      (tipIx baseIx : nat) :
  List.length landmarks = 21%nat ->
  (tipIx < 21)%nat -> (baseIx < 21)%nat ->
  0 < k ->
  scaleReference landmarks <> 0 ->
  extensionRatio (scaleLandmarks k landmarks) tipIx baseIx
  = extensionRatio landmarks tipIx baseIx.
Proof.
  intros Hlen Ht Hb Hk Href. unfold extensionRatio.
  rewrite scaleReference_scaleLandmarks by (assumption || lra).
  rewrite !pt_scaleLandmarks by lia.
  rewrite distance_scaleAbout by lra.
  field. split; [exact Href | lra].
Qed.

(** C1, as stated, fails: [spreadHand] has reference 1 and openness 1; scaled
    by 1/10000 about the wrist its reference is below the threshold and the
    openness is 0. *)
Lemma scaling_below_threshold_changes_openness :
  List.length spreadHand = 21%nat
  /\ epsilon < scaleReference spreadHand
  /\ 0 < 1 / 10000
  /\ calculateHandOpenness spreadHand = Normal 1
  /\ calculateHandOpenness (scaleLandmarks (1 / 10000) spreadHand) = Normal 0
  /\ calculateHandOpenness (scaleLandmarks (1 / 10000) spreadHand)
     <> calculateHandOpenness spreadHand.
Proof.
  assert (Hs : calculateHandOpenness (scaleLandmarks (1 / 10000) spreadHand)
               = Normal 0).
  { apply openness_early_return
      with (w := pt (scaleLandmarks (1 / 10000) spreadHand) 0)
           (m := pt (scaleLandmarks (1 / 10000) spreadHand) 9).
    - apply at_pt. rewrite length_scaleLandmarks. simpl. lia.
    - apply at_pt. rewrite length_scaleLandmarks. simpl. lia.
    - fold (scaleReference (scaleLandmarks (1 / 10000) spreadHand)).
      rewrite scaleReference_scaleLandmarks by (reflexivity || lra).
      rewrite scaleReference_spreadHand. unfold epsilon. lra. }
  split; [reflexivity|].
  split; [rewrite scaleReference_spreadHand; unfold epsilon; lra|].
  split; [lra|].
  split; [exact openness_spreadHand|].
  split; [exact Hs|].
  rewrite Hs, openness_spreadHand. intros H. injection H as H. lra.
Qed.

(** C1, amended: on a 21-point set whose scale reference is at least the
    threshold, scaling every landmark by [k > 0] about the wrist leaves the
    openness unchanged provided the scaled reference, [k] times the original,
    is not below the threshold either. *)
Theorem openness_scale_invariant (k : R) (landmarks : list Landmark) :
  List.length landmarks = 21%nat ->
  epsilon <= scaleReference landmarks ->
  0 < k ->
  epsilon <= k * scaleReference landmarks ->
  calculateHandOpenness (scaleLandmarks k landmarks)
  = calculateHandOpenness landmarks.
Proof.
  intros Hlen Href Hk Hscaled.
  assert (Hnz : scaleReference landmarks <> 0) by (pose proof epsilon_pos; lra).
  rewrite (openness_closed_form landmarks) by assumption.
  rewrite openness_closed_form.
  - f_equal. unfold opennessFrom.
    rewrite !extensionRatio_scaleLandmarks by (assumption || lia).
    reflexivity.
  - rewrite length_scaleLandmarks. exact Hlen.
  - rewrite scaleReference_scaleLandmarks by (assumption || lra). exact Hscaled.
Qed.

Lemma openness_scale_invariant_witness :
  calculateHandOpenness (scaleLandmarks 2 spreadHand)
  = calculateHandOpenness spreadHand.
Proof.
  apply (openness_scale_invariant 2 spreadHand).
  - reflexivity.
  - rewrite scaleReference_spreadHand. unfold epsilon. lra.
  - lra.
  - rewrite scaleReference_spreadHand. unfold epsilon. lra.
Defined.

(** ** The orientation basis *)

Lemma dot_self_nonneg (v : Vector3) : 0 <= dot v v.
Proof. unfold dot. nra. Qed.

Lemma length_sqr (v : Vector3) : length v * length v = dot v v.
Proof. unfold length. apply sqrt_sqrt. apply dot_self_nonneg. Qed.

Lemma length_nonzero (v : Vector3) : v <> zeroVector -> length v <> 0.
Proof.
  intros Hv Hl. apply Hv.
  pose proof (length_sqr v) as Hs. rewrite Hl in Hs.
  destruct v as [a b c]. unfold dot in Hs. simpl in Hs.
  unfold zeroVector.
  assert (a = 0) by nra. assert (b = 0) by nra. assert (c = 0) by nra.
  subst. reflexivity.
Qed.

Lemma length_unit (v : Vector3) : dot v v = 1 -> length v = 1.
Proof.
  intros H. unfold length. unfold dot in H. rewrite H. apply sqrt_1.
Qed.

(** [normalize] multiplies by the inverse of the length. *)
Lemma normalize_scale (v : Vector3) :
  v <> zeroVector -> normalize v = multiplyScalar v (1 / length v).
Proof.
  intros Hv. unfold normalize, divideScalar.
  destruct (Req_dec_T (length v) 0) as [H0|_]; [|reflexivity].
  exfalso. exact (length_nonzero v Hv H0).
Qed.

Lemma normalize_unit (v : Vector3) :
  v <> zeroVector -> dot (normalize v) (normalize v) = 1.
Proof.
  intros Hv. rewrite normalize_scale by exact Hv.
  pose proof (length_nonzero v Hv) as Hl.
  pose proof (length_sqr v) as Hs.
  unfold multiplyScalar, dot in *. simpl.
  replace (vx v * (1 / length v) * (vx v * (1 / length v))
           + vy v * (1 / length v) * (vy v * (1 / length v))
           + vz v * (1 / length v) * (vz v * (1 / length v)))
    with ((vx v * vx v + vy v * vy v + vz v * vz v)
          / (length v * length v)) by (field; exact Hl).
  rewrite <- Hs. field. exact Hl.
Qed.

(** A vector of length 1 is left as it is. *)
Lemma normalize_of_unit (v : Vector3) : dot v v = 1 -> normalize v = v.
Proof.
  intros H. unfold normalize, divideScalar. rewrite (length_unit v H).
  destruct (Req_dec_T 1 0) as [H0|_]; [lra|].
  destruct v as [a b c]. unfold multiplyScalar. simpl.
  f_equal; field.
Qed.

Lemma dot_multiplyScalar_l (v w : Vector3) (s : R) :
  dot (multiplyScalar v s) w = s * dot v w.
Proof. unfold dot, multiplyScalar. simpl. ring. Qed.

Lemma dot_cross_right (a b : Vector3) : dot (crossVectors a b) b = 0.
Proof. unfold dot, crossVectors. simpl. ring. Qed.

Lemma dot_sym (a b : Vector3) : dot a b = dot b a.
Proof. unfold dot. ring. Qed.

(** The cross product of two non-parallel vectors stays nonzero when both
    are normalized. *)
Lemma cross_normalize_nonzero (a b : Vector3) :
  a <> zeroVector -> b <> zeroVector ->
  crossVectors a b <> zeroVector ->
  crossVectors (normalize a) (normalize b) <> zeroVector.
Proof.
  intros Ha Hb Hc Hz. apply Hc.
  rewrite !normalize_scale in Hz by assumption.
  pose proof (length_nonzero a Ha) as Hla.
  pose proof (length_nonzero b Hb) as Hlb.
  assert (Hk : 1 / length a * (1 / length b) <> 0).
  { apply Rmult_integral_contrapositive_currified;
      unfold Rdiv; rewrite Rmult_1_l; apply Rinv_neq_0_compat; assumption. }
  set (k := 1 / length a * (1 / length b)) in *.
  unfold crossVectors, multiplyScalar, zeroVector in *. simpl in *.
  injection Hz as Hx Hy Hz.
  f_equal.
  - apply (Rmult_eq_reg_l k); [|exact Hk]. rewrite Rmult_0_r. rewrite <- Hx.
    unfold k. ring.
  - apply (Rmult_eq_reg_l k); [|exact Hk]. rewrite Rmult_0_r. rewrite <- Hy.
    unfold k. ring.
  - apply (Rmult_eq_reg_l k); [|exact Hk]. rewrite Rmult_0_r. rewrite <- Hz.
    unfold k. ring.
Qed.

(** Re-orthogonalizing against two orthogonal unit vectors. *)
Lemma reorthogonalized (u f : Vector3) :
  dot u u = 1 -> dot f f = 1 -> dot u f = 0 ->
  orthonormal (mkBasis (normalize (crossVectors u f)) u f).
Proof.
  intros Hu Hf Huf.
  assert (Hc : dot (crossVectors u f) (crossVectors u f) = 1).
  { transitivity (dot u u * dot f f - dot u f * dot u f).
    - unfold dot, crossVectors. simpl. ring.
    - rewrite Hu, Hf, Huf. ring. }
  rewrite (normalize_of_unit _ Hc).
  unfold orthonormal. cbn [handRight handUp handForward].
  repeat split.
  - unfold dot, crossVectors. simpl. ring.
  - apply dot_cross_right.
  - exact Huf.
  - apply length_unit. exact Hc.
  - apply length_unit. exact Hu.
  - apply length_unit. exact Hf.
  - destruct u as [a b c], f as [d e g].
    unfold dot in Hu, Huf. simpl in Hu, Huf.
    unfold crossVectors. simpl. f_equal.
    + transitivity (d * (a * a + b * b + c * c) - a * (a * d + b * e + c * g));
        [ring | rewrite Hu, Huf; ring].
    + transitivity (e * (a * a + b * b + c * c) - b * (a * d + b * e + c * g));
        [ring | rewrite Hu, Huf; ring].
    + transitivity (g * (a * a + b * b + c * c) - c * (a * d + b * e + c * g));
        [ring | rewrite Hu, Huf; ring].
Qed.

Lemma basisOf_orthonormal (wrist indexMCP pinkyMCP middleMCP : Vector3) :
  subVectors middleMCP wrist <> zeroVector ->
  subVectors indexMCP pinkyMCP <> zeroVector ->
  crossVectors (subVectors indexMCP pinkyMCP) (subVectors middleMCP wrist)
    <> zeroVector ->
  orthonormal (basisOf wrist indexMCP pinkyMCP middleMCP).
Proof.
  intros Hup Hright Hcross. unfold basisOf.
  set (u := normalize (subVectors middleMCP wrist)).
  set (r := normalize (subVectors indexMCP pinkyMCP)).
  assert (Hc : crossVectors r u <> zeroVector)
    by (apply cross_normalize_nonzero; assumption).
  apply reorthogonalized.
  - apply normalize_unit. exact Hup.
  - apply normalize_unit. exact Hc.
  - rewrite dot_sym. rewrite normalize_scale by exact Hc.
    rewrite dot_multiplyScalar_l, dot_cross_right. ring.
Qed.

(** C2: for landmarks 0, 5, 17 and 9 whose derived up (middle base minus
    wrist) and right (index base minus pinky base) vectors are nonzero and
    not parallel, the basis (right, up, forward) that [calculateHandRotation]
    hands to [makeBasis] is orthonormal and right-handed: the three dot
    products are 0, the three lengths are 1, and right x up = forward, the
    right vector being the re-orthogonalized one. *)
Theorem hand_basis_orthonormal
        (landmarks : list Landmark) (wrist indexMCP pinkyMCP middleMCP : Landmark) :
  at_ landmarks 0 = Some wrist ->
  at_ landmarks 5 = Some indexMCP ->
  at_ landmarks 17 = Some pinkyMCP ->
  at_ landmarks 9 = Some middleMCP ->
  subVectors (toVector3 middleMCP) (toVector3 wrist) <> zeroVector ->
  subVectors (toVector3 indexMCP) (toVector3 pinkyMCP) <> zeroVector ->
  crossVectors (subVectors (toVector3 indexMCP) (toVector3 pinkyMCP))
               (subVectors (toVector3 middleMCP) (toVector3 wrist))
    <> zeroVector ->
  exists b : Basis,
    handBasis landmarks = Normal b
    /\ orthonormal b
    /\ (THREE_defined = true ->
        calculateHandRotation landmarks
        = Normal (Some (setFromBasis (handRight b) (handUp b) (handForward b)))).
Proof.
  intros H0 H5 H17 H9 Hup Hright Hcross.
  exists (basisOf (toVector3 wrist) (toVector3 indexMCP)
                  (toVector3 pinkyMCP) (toVector3 middleMCP)).
  assert (Hb : handBasis landmarks
               = Normal (basisOf (toVector3 wrist) (toVector3 indexMCP)
                                 (toVector3 pinkyMCP) (toVector3 middleMCP))).
  { unfold handBasis. rewrite H0, H5, H17, H9. reflexivity. }
  split; [exact Hb|]. split.
  - apply basisOf_orthonormal; assumption.
  - intros HT. unfold calculateHandRotation. rewrite HT, Hb. reflexivity.
Qed.

(** ** Frames *)

Ltac run_module :=
  cbv [seq assign get ret lift invoke completion final calls app];
  cbn [_handOpenness _targetHandOpenness _smoothedOpenness _isHandDetected _handedness _handRotation _targetHandRotation _smoothedHandRotation _landmarks _showCameraFeed _onHandUpdate _onHandLost
        set_handOpenness set_targetHandOpenness set_smoothedOpenness set_isHandDetected set_handedness set_handRotation set_targetHandRotation set_smoothedHandRotation set_landmarks set_showCameraFeed set_onHandUpdate set_onHandLost].

(** A frame without a hand. *)
Lemma onHandResults_lost (results : Results) (st : State) :
  firstHand results = None ->
  onHandResults results st
  = mkRun (Normal tt)
          (set_targetHandOpenness 0
             (set_landmarks None (set_isHandDetected false st)))
          (match _onHandLost st with
           | Some cb => [HandLost cb]
           | None => []
           end).
Proof.
  intros H. unfold onHandResults. rewrite H. run_module.
  destruct (_onHandLost st); reflexivity.
Qed.

(** A frame with a hand, along the completions of its three computations. *)
Lemma onHandResults_hand (results : Results) (hand : list Landmark) (st : State) :
  firstHand results = Some hand ->
  onHandResults results st
  = match drawHandLandmarks hand with
    | Normal _ =>
        match calculateHandOpenness hand with
        | Normal o =>
            match calculateHandRotation hand with
            | Normal q =>
                mkRun (Normal tt)
                      (set_targetHandRotation q
                         (set_targetHandOpenness o (ingested results hand st)))
                      (match _onHandUpdate st with
                       | Some cb =>
                           [HandUpdate cb (mkSnapshot (_handOpenness st)
                                                      (_handRotation st)
                                                      (Some hand))]
                       | None => []
                       end)
            | TypeError =>
                mkRun TypeError
                      (set_targetHandOpenness o (ingested results hand st)) []
            | NonFinite =>
                mkRun NonFinite
                      (set_targetHandOpenness o (ingested results hand st)) []
            end
        | TypeError => mkRun TypeError (ingested results hand st) []
        | NonFinite => mkRun NonFinite (ingested results hand st) []
        end
    | TypeError => mkRun TypeError (ingested results hand st) []
    | NonFinite => mkRun NonFinite (ingested results hand st) []
    end.
Proof.
  intros H. unfold onHandResults, ingested. rewrite H.
  destruct (firstLabel results) as [label|];
    destruct (drawHandLandmarks hand) as [[]| |];
    destruct (calculateHandOpenness hand) as [o| |];
    destruct (calculateHandRotation hand) as [q| |];
    run_module; try reflexivity;
    destruct (_onHandUpdate st); reflexivity.
Qed.

(** On a 21-point hand the three computations of a frame complete normally. *)
Lemma drawHandLandmarks_complete (hand : list Landmark) :
  List.length hand = 21%nat -> drawHandLandmarks hand = Normal tt.
Proof.
  intros Hlen. explode_landmarks hand Hlen. reflexivity.
Qed.

Lemma calculateHandOpenness_complete (hand : list Landmark) :
  List.length hand = 21%nat ->
  exists o : R, calculateHandOpenness hand = Normal o.
Proof.
  intros Hlen.
  destruct (Rlt_dec (scaleReference hand) epsilon) as [Hlt|Hge].
  - exists 0. apply openness_early_return
      with (w := pt hand 0) (m := pt hand 9);
      [apply at_pt; lia | apply at_pt; lia | exact Hlt].
  - exists (opennessFrom 2 hand). apply openness_closed_form; [exact Hlen | lra].
Qed.

Lemma calculateHandRotation_complete (hand : list Landmark) :
  List.length hand = 21%nat ->
  exists q : option Quaternion, calculateHandRotation hand = Normal q.
Proof.
  intros Hlen. unfold calculateHandRotation.
  destruct THREE_defined; cbn [negb]; [|eexists; reflexivity].
  explode_landmarks hand Hlen. eexists. reflexivity.
Qed.

Lemma firstHand_none (results : Results) :
  multiHandLandmarks results = None \/ multiHandLandmarks results = Some [] ->
  firstHand results = None.
Proof.
  intros [H|H]; unfold firstHand; rewrite H; reflexivity.
Qed.

(** A frame with a hand leaves the detection flag set, however it completes. *)
Lemma onHandResults_hand_detected (results : Results) (hand : list Landmark)
      (st : State) :
  firstHand results = Some hand ->
  _isHandDetected (final (onHandResults results st)) = true.
Proof.
  intros H. rewrite (onHandResults_hand results hand st H). unfold ingested.
  destruct (firstLabel results);
    destruct (drawHandLandmarks hand) as [[]| |];
    destruct (calculateHandOpenness hand);
    destruct (calculateHandRotation hand); reflexivity.
Qed.

(** C6: a frame whose landmark list is absent or empty completes normally,
    clears the detection flag and the stored landmarks, sets the target
    openness to exactly 0 and calls the registered lost callback, once.  In
    particular, whenever a frame takes the detection flag from true to false,
    the target openness is 0 right after it and the registered lost callback
    has been called. *)
Theorem hand_absent_resets (results : Results) (st : State) :
  (multiHandLandmarks results = None \/ multiHandLandmarks results = Some [] ->
   let r := onHandResults results st in
   completion r = Normal tt
   /\ isHandDetected (final r) = false
   /\ getLandmarks (final r) = None
   /\ getTargetOpenness (final r) = 0
   /\ forall cb, _onHandLost st = Some cb -> calls r = [HandLost cb])
  /\ (isHandDetected st = true ->
      isHandDetected (final (onHandResults results st)) = false ->
      let r := onHandResults results st in
      getTargetOpenness (final r) = 0
      /\ forall cb, _onHandLost st = Some cb -> calls r = [HandLost cb]).
Proof.
  assert (Hlost : firstHand results = None ->
                  let r := onHandResults results st in
                  completion r = Normal tt
                  /\ isHandDetected (final r) = false
                  /\ getLandmarks (final r) = None
                  /\ getTargetOpenness (final r) = 0
                  /\ forall cb, _onHandLost st = Some cb
                                -> calls r = [HandLost cb]).
  { intros H r. subst r. rewrite (onHandResults_lost results st H).
    cbn [completion final calls].
    repeat split. intros cb Hcb. rewrite Hcb. reflexivity. }
  split.
  - intros H. apply Hlost. apply firstHand_none. exact H.
  - intros _ Hfalse.
    destruct (firstHand results) as [hand|] eqn:Hfirst.
    + unfold isHandDetected in Hfalse.
      rewrite (onHandResults_hand_detected results hand st Hfirst) in Hfalse.
      discriminate Hfalse.
    + destruct (Hlost eq_refl) as (_ & _ & _ & Ht & Hc). split; assumption.
Qed.

(** C8, amended: a frame with a 21-point hand completes normally, and when an
    update callback is registered it is called exactly once, nothing else
    being called; the snapshot holds the published openness and orientation
    as they stand when the frame arrives (what [getHandOpenness] and
    [getHandRotation] return before the frame, which the frame does not
    touch), not the frame's own measurements, and the landmark set of this
    frame, which is also the stored one. *)
Theorem hand_update_called_once (results : Results) (hand : list Landmark)
        (st : State) (cb : Callback) :
  firstHand results = Some hand ->
  List.length hand = 21%nat ->
  _onHandUpdate st = Some cb ->
  let r := onHandResults results st in
  completion r = Normal tt
  /\ calls r = [HandUpdate cb (mkSnapshot (getHandOpenness st)
                                          (getHandRotation st)
                                          (Some hand))]
  /\ getHandOpenness (final r) = getHandOpenness st
  /\ getHandRotation (final r) = getHandRotation st
  /\ getLandmarks (final r) = Some hand.
Proof.
  intros Hfirst Hlen Hcb r. subst r.
  rewrite (onHandResults_hand results hand st Hfirst).
  rewrite (drawHandLandmarks_complete hand Hlen).
  destruct (calculateHandOpenness_complete hand Hlen) as [o Ho].
  destruct (calculateHandRotation_complete hand Hlen) as [q Hq].
  rewrite Ho, Hq, Hcb. unfold ingested.
  destruct (firstLabel results); repeat split; reflexivity.
Qed.

(** ** Ticks *)

(** A tick, along the branches of its rotation part. *)
Lemma updateHandTracking_run (st : State) :
  updateHandTracking st
  = let s' := _smoothedOpenness st
              + (_targetHandOpenness st - _smoothedOpenness st) * SMOOTHING in
    let st2 := set_handOpenness s' (set_smoothedOpenness s' st) in
    match _isHandDetected st, _targetHandRotation st, _smoothedHandRotation st with
    | true, Some target, Some smoothed =>
        let q := slerp smoothed target (SMOOTHING * 1.5) in
        match _handRotation st with
        | Some _ =>
            mkRun (Normal tt)
                  (set_handRotation (Some q)
                     (set_smoothedHandRotation (Some q) st2)) []
        | None => mkRun TypeError (set_smoothedHandRotation (Some q) st2) []
        end
    | _, _, _ => mkRun (Normal tt) st2 []
    end.
Proof.
  unfold updateHandTracking. run_module.
  destruct (_isHandDetected st); [|reflexivity].
  destruct (_targetHandRotation st); [|reflexivity].
  destruct (_smoothedHandRotation st); [|reflexivity].
  cbn [deref]. destruct (_handRotation st); reflexivity.
Qed.

Lemma tick_smoothedOpenness (st : State) :
  _smoothedOpenness (final (updateHandTracking st))
  = _smoothedOpenness st
    + (_targetHandOpenness st - _smoothedOpenness st) * SMOOTHING.
Proof.
  rewrite updateHandTracking_run.
  destruct (_isHandDetected st); [|reflexivity].
  destruct (_targetHandRotation st); [|reflexivity].
  destruct (_smoothedHandRotation st); [|reflexivity].
  destruct (_handRotation st); reflexivity.
Qed.

Lemma tick_handOpenness (st : State) :
  _handOpenness (final (updateHandTracking st))
  = _smoothedOpenness (final (updateHandTracking st)).
Proof.
  rewrite updateHandTracking_run.
  destruct (_isHandDetected st); [|reflexivity].
  destruct (_targetHandRotation st); [|reflexivity].
  destruct (_smoothedHandRotation st); [|reflexivity].
  destruct (_handRotation st); reflexivity.
Qed.

Lemma tick_targetHandOpenness (st : State) :
  _targetHandOpenness (final (updateHandTracking st)) = _targetHandOpenness st.
Proof.
  rewrite updateHandTracking_run.
  destruct (_isHandDetected st); [|reflexivity].
  destruct (_targetHandRotation st); [|reflexivity].
  destruct (_smoothedHandRotation st); [|reflexivity].
  destruct (_handRotation st); reflexivity.
Qed.

Lemma SMOOTHING_value : SMOOTHING = 0.12.
Proof. reflexivity. Qed.

(** C10: a tick replaces the smoothed orientation by its spherical
    interpolation toward the target, by the fraction 0.12 * 1.5, exactly when
    a hand is detected and both the target and the smoothed quaternion exist;
    in every other case the smoothed orientation after the tick is the one
    before it. *)
Theorem tick_orientation (st : State) :
  _smoothedHandRotation (final (updateHandTracking st))
  = match _isHandDetected st, _targetHandRotation st, _smoothedHandRotation st with
    | true, Some target, Some smoothed =>
        Some (slerp smoothed target (0.12 * 1.5))
    | _, _, _ => _smoothedHandRotation st
    end.
Proof.
  rewrite updateHandTracking_run. fold SMOOTHING.
  destruct (_isHandDetected st) eqn:Hd; [|reflexivity].
  destruct (_targetHandRotation st) eqn:Ht; [|reflexivity].
  destruct (_smoothedHandRotation st) eqn:Hs; [|exact Hs].
  destruct (_handRotation st); reflexivity.
Qed.

(** ** Handedness *)

Lemma step_keeps_handedness (st : State) (e : Event) :
  reportsHandedness e = false ->
  _handedness (step st e) = _handedness st.
Proof.
  intros He. destruct e as [|results| |cb|cb|]; cbn [step].
  - unfold initQuaternions. destruct THREE_defined; reflexivity.
  - cbn [reportsHandedness] in He.
    destruct (firstHand results) as [hand|] eqn:Hfirst.
    + destruct (firstLabel results) as [label|] eqn:Hlabel; [discriminate He|].
      rewrite (onHandResults_hand results hand st Hfirst).
      unfold ingested. rewrite Hlabel.
      destruct (drawHandLandmarks hand) as [[]| |];
        destruct (calculateHandOpenness hand);
        destruct (calculateHandRotation hand); reflexivity.
    + rewrite (onHandResults_lost results st Hfirst). reflexivity.
  - rewrite updateHandTracking_run.
    destruct (_isHandDetected st); [|reflexivity].
    destruct (_targetHandRotation st); [|reflexivity].
    destruct (_smoothedHandRotation st); [|reflexivity].
    destruct (_handRotation st); reflexivity.
  - reflexivity.
  - reflexivity.
  - reflexivity.
Qed.

(** C9: a frame without a hand leaves the handedness as it was; and over any
    run of events in which no frame carries both a hand and a handedness
    entry (lost frames in any number, ticks, registrations), the accessor
    reports at the end what it reported at the start: "Left" stays "Left",
    and no default comes back. *)
Theorem handedness_sticky (st : State) :
  (forall results,
     firstHand results = None ->
     getHandedness (final (onHandResults results st)) = getHandedness st)
  /\ (forall es,
        Forall (fun e => reportsHandedness e = false) es ->
        getHandedness (run st es) = getHandedness st).
Proof.
  split.
  - intros results H. rewrite (onHandResults_lost results st H). reflexivity.
  - intros es. revert st. induction es as [|e es IH]; intros st Hes.
    + reflexivity.
    + inversion Hes as [|e' es' He Hrest]; subst.
      unfold run. cbn [fold_left]. fold (run (step st e) es).
      rewrite (IH (step st e) Hrest). unfold getHandedness.
      apply step_keeps_handedness. exact He.
Qed.

(** ** Openness in the unit interval *)

Lemma convex_inUnit (s t : R) :
  inUnit s -> inUnit t -> inUnit (s + (t - s) * SMOOTHING).
Proof.
  unfold inUnit, SMOOTHING. intros [Hs0 Hs1] [Ht0 Ht1]. split; nra.
Qed.

Lemma step_keeps_openness (st : State) (e : Event) :
  inUnit (_smoothedOpenness st) /\ inUnit (_targetHandOpenness st) ->
  inUnit (_smoothedOpenness (step st e))
  /\ inUnit (_targetHandOpenness (step st e)).
Proof.
  intros [Hs Ht]. destruct e as [|results| |cb|cb|]; cbn [step].
  - unfold initQuaternions. destruct THREE_defined; split; assumption.
  - destruct (firstHand results) as [hand|] eqn:Hfirst.
    + rewrite (onHandResults_hand results hand st Hfirst). unfold ingested.
      pose proof (openness_range hand) as Hrange.
      destruct (firstLabel results);
        destruct (drawHandLandmarks hand) as [[]| |];
        destruct (calculateHandOpenness hand) as [o| |];
        destruct (calculateHandRotation hand);
        cbn [final _smoothedOpenness _targetHandOpenness set_targetHandRotation
             set_targetHandOpenness set_handedness set_landmarks
             set_isHandDetected];
        split; try assumption; apply (Hrange o eq_refl).
    + rewrite (onHandResults_lost results st Hfirst).
      split; [exact Hs | unfold inUnit; simpl; lra].
  - rewrite tick_smoothedOpenness, tick_targetHandOpenness.
    split; [apply convex_inUnit; assumption | exact Ht].
  - split; assumption.
  - split; assumption.
  - split; assumption.
Qed.

(** C3: in every reachable state the smoothed openness and the target
    openness lie in [0,1].  The target is either a value returned by
    [calculateHandOpenness], which lies in [0,1] whenever it returns, or the
    0 of a frame without a hand; a tick replaces the smoothed openness by
    the convex combination (1 - a) * smoothed + a * target with a = 0.12. *)
Theorem smoothed_openness_in_unit_interval (st : State) :
  reachable st ->
  0 <= _smoothedOpenness st <= 1
  /\ 0 <= _targetHandOpenness st <= 1
  /\ (forall hand o, calculateHandOpenness hand = Normal o -> 0 <= o <= 1)
  /\ _smoothedOpenness (final (updateHandTracking st))
     = (1 - SMOOTHING) * _smoothedOpenness st
       + SMOOTHING * _targetHandOpenness st
  /\ 0 <= SMOOTHING <= 1.
Proof.
  intros Hreach.
  assert (Hinv : inUnit (_smoothedOpenness st)
                 /\ inUnit (_targetHandOpenness st)).
  { induction Hreach as [|st e _ IH].
    - unfold inUnit. simpl. lra.
    - apply step_keeps_openness. exact IH. }
  destruct Hinv as [Hs Ht].
  split; [exact Hs|]. split; [exact Ht|].
  split; [exact openness_range|].
  split; [rewrite tick_smoothedOpenness; ring|].
  unfold SMOOTHING. lra.
Qed.

(** ** Repeated ticks under a constant target *)

Lemma ticks_S (n : nat) (st : State) :
  ticks (S n) st = ticks n (step st Tick).
Proof. reflexivity. Qed.

Lemma ticks_target (n : nat) (st : State) :
  _targetHandOpenness (ticks n st) = _targetHandOpenness st.
Proof.
  revert st. induction n as [|n IH]; intros st.
  - reflexivity.
  - rewrite ticks_S, IH. cbn [step]. apply tick_targetHandOpenness.
Qed.

(** The distance to the target after [n] ticks, in closed form. *)
Lemma ticks_gap (n : nat) (st : State) :
  _targetHandOpenness st - _smoothedOpenness (ticks n st)
  = (1 - SMOOTHING) ^ n * (_targetHandOpenness st - _smoothedOpenness st).
Proof.
  revert st. induction n as [|n IH]; intros st.
  - unfold ticks, run. simpl. ring.
  - rewrite ticks_S.
    rewrite <- (tick_targetHandOpenness st) at 1.
    change (final (updateHandTracking st)) with (step st Tick).
    rewrite IH. cbn [step].
    rewrite tick_targetHandOpenness, tick_smoothedOpenness. simpl. ring.
Qed.

Lemma one_minus_SMOOTHING : 0 < 1 - SMOOTHING < 1.
Proof. unfold SMOOTHING. lra. Qed.

(** C4: with the target held at a value of [0,1] over repeated ticks, each
    tick multiplies |target - smoothed| by 1 - 0.12: the distance never
    grows, shrinks strictly while it is not 0, and falls below every positive
    bound; the smoothed value stays on the side of the target it started
    on. *)
Theorem smoothing_converges_without_overshoot (st : State) :
  0 <= _targetHandOpenness st <= 1 ->
  let t := _targetHandOpenness st in
  let s := fun n => _smoothedOpenness (ticks n st) in
  (forall n, _targetHandOpenness (ticks n st) = t)
  /\ (forall n, Rabs (t - s (S n)) = (1 - 0.12) * Rabs (t - s n))
  /\ (forall n, Rabs (t - s (S n)) <= Rabs (t - s n))
  /\ (forall n, t <> s n -> Rabs (t - s (S n)) < Rabs (t - s n))
  /\ (forall bound, 0 < bound ->
       exists N, forall n, (N <= n)%nat -> Rabs (t - s n) < bound)
  /\ (forall n, s 0%nat <= t -> s n <= t)
  /\ (forall n, t <= s 0%nat -> t <= s n).
Proof.
  intros _ t s.
  pose proof one_minus_SMOOTHING as [Hq0 Hq1].
  assert (Hgap : forall n, t - s n = (1 - SMOOTHING) ^ n * (t - s 0%nat)).
  { intros n. unfold t, s. rewrite ticks_gap. reflexivity. }
  assert (Hstep : forall n, Rabs (t - s (S n))
                            = (1 - SMOOTHING) * Rabs (t - s n)).
  { intros n. rewrite (Hgap (S n)), (Hgap n). cbn [pow].
    rewrite Rmult_assoc, Rabs_mult.
    rewrite (Rabs_pos_eq (1 - SMOOTHING)) by lra. reflexivity. }
  assert (Hpow : forall n, 0 < (1 - SMOOTHING) ^ n)
    by (intros n; apply pow_lt; exact Hq0).
  split; [intros n; apply ticks_target|].
  split; [exact Hstep|].
  split.
  { intros n. rewrite Hstep. pose proof (Rabs_pos (t - s n)). nra. }
  split.
  { intros n Hne. rewrite Hstep.
    assert (0 < Rabs (t - s n)) by (apply Rabs_pos_lt; lra). nra. }
  split.
  { intros bound Hbound.
    destruct (Req_dec_T (t - s 0%nat) 0) as [Hz|Hnz].
    - exists 0%nat. intros n _. rewrite Hgap, Hz, Rmult_0_r, Rabs_R0.
      exact Hbound.
    - assert (Hd : 0 < Rabs (t - s 0%nat)) by (apply Rabs_pos_lt; exact Hnz).
      destruct (pow_lt_1_zero (1 - SMOOTHING)) with (y := bound / Rabs (t - s 0%nat))
        as [N HN].
      + rewrite Rabs_pos_eq by lra. exact Hq1.
      + apply Rdiv_lt_0_compat; assumption.
      + exists N. intros n Hn. rewrite Hgap, Rabs_mult.
        specialize (HN n Hn).
        apply (Rmult_lt_compat_r (Rabs (t - s 0%nat))) in HN; [|exact Hd].
        replace (bound / Rabs (t - s 0%nat) * Rabs (t - s 0%nat))
          with bound in HN by (field; lra).
        exact HN. }
  split.
  - intros n Hle. specialize (Hgap n). specialize (Hpow n).
    assert (0 <= t - s n) by (rewrite Hgap; apply Rmult_le_pos; lra). lra.
  - intros n Hle. specialize (Hgap n). specialize (Hpow n).
    assert (0 <= (1 - SMOOTHING) ^ n * (s 0%nat - t))
      by (apply Rmult_le_pos; lra).
    nra.
Qed.

(** ** Ticks complete in reachable states *)

Lemma step_keeps_rotationsPaired (st : State) (e : Event) :
  rotationsPaired st -> rotationsPaired (step st e).
Proof.
  unfold rotationsPaired. intros H.
  destruct e as [|results| |cb|cb|]; cbn [step].
  - unfold initQuaternions. destruct THREE_defined; [|exact H].
    run_module. split; discriminate.
  - destruct (firstHand results) as [hand|] eqn:Hfirst.
    + rewrite (onHandResults_hand results hand st Hfirst). unfold ingested.
      destruct (firstLabel results);
        destruct (drawHandLandmarks hand) as [[]| |];
        destruct (calculateHandOpenness hand);
        destruct (calculateHandRotation hand); exact H.
    + rewrite (onHandResults_lost results st Hfirst). exact H.
  - rewrite updateHandTracking_run.
    destruct (_isHandDetected st); [|exact H].
    destruct (_targetHandRotation st); [|exact H].
    destruct (_smoothedHandRotation st) eqn:Hs.
    + destruct (_handRotation st) eqn:Hh.
      * cbn. split; discriminate.
      * destruct H as [_ H]. specialize (H eq_refl). discriminate H.
    + cbn. rewrite Hs. exact H.
  - exact H.
  - exact H.
  - exact H.
Qed.

(** In a reachable state a tick completes normally and calls nothing. *)
Lemma tick_completes (st : State) :
  reachable st ->
  completion (updateHandTracking st) = Normal tt
  /\ calls (updateHandTracking st) = [].
Proof.
  intros Hreach.
  assert (Hp : rotationsPaired st).
  { induction Hreach as [|st e _ IH].
    - unfold rotationsPaired. simpl. tauto.
    - apply step_keeps_rotationsPaired. exact IH. }
  rewrite updateHandTracking_run.
  destruct (_isHandDetected st); [|split; reflexivity].
  destruct (_targetHandRotation st); [|split; reflexivity].
  destruct (_smoothedHandRotation st) eqn:Hs; [|split; reflexivity].
  destruct (_handRotation st) eqn:Hh; [split; reflexivity|].
  destruct Hp as [_ Hp]. rewrite (Hp Hh) in Hs. discriminate Hs.
Qed.

Lemma step_keeps_publishedIsSmoothed (st : State) (e : Event) :
  publishedIsSmoothed st -> publishedIsSmoothed (step st e).
Proof.
  unfold publishedIsSmoothed. intros [Ho Hr].
  destruct e as [|results| |cb|cb|]; cbn [step].
  - unfold initQuaternions. destruct THREE_defined; [|split; assumption].
    run_module. split; [exact Ho | reflexivity].
  - destruct (firstHand results) as [hand|] eqn:Hfirst.
    + rewrite (onHandResults_hand results hand st Hfirst). unfold ingested.
      destruct (firstLabel results);
        destruct (drawHandLandmarks hand) as [[]| |];
        destruct (calculateHandOpenness hand);
        destruct (calculateHandRotation hand); split; assumption.
    + rewrite (onHandResults_lost results st Hfirst). split; assumption.
  - rewrite updateHandTracking_run.
    destruct (_isHandDetected st); [|split; [reflexivity | exact Hr]].
    destruct (_targetHandRotation st); [|split; [reflexivity | exact Hr]].
    destruct (_smoothedHandRotation st) eqn:Hs.
    + destruct (_handRotation st) eqn:Hh; [split; reflexivity | discriminate Hr].
    + split; [reflexivity|]. cbn. rewrite Hs. exact Hr.
  - split; assumption.
  - split; assumption.
  - split; assumption.
Qed.

(** In a reachable state the published openness and orientation, which are
    what an update callback is handed, are the smoothed ones of the latest
    tick. *)
Lemma published_is_smoothed (st : State) :
  reachable st -> publishedIsSmoothed st.
Proof.
  intros Hreach. induction Hreach as [|st e _ IH].
  - split; reflexivity.
  - apply step_keeps_publishedIsSmoothed. exact IH.
Qed.

(** ** Short landmark sets *)

Lemma drawHandLandmarks_long (hand : list Landmark) :
  (21 <= List.length hand)%nat -> drawHandLandmarks hand = Normal tt.
Proof.
  intros H.
  do 21 (destruct hand as [|? hand]; [simpl in H; lia|]). reflexivity.
Qed.

Lemma drawHandLandmarks_short (hand : list Landmark) :
  (List.length hand < 21)%nat -> drawHandLandmarks hand = TypeError.
Proof.
  intros H.
  do 21 (destruct hand as [|? hand]; [reflexivity|]). simpl in H. lia.
Qed.

(** The preview drawing reads the landmarks 0 to 20: it completes exactly on
    the sets of at least 21 landmarks and stops with a TypeError on every
    shorter one. *)
Theorem drawHandLandmarks_needs_21 (hand : list Landmark) :
  (drawHandLandmarks hand = Normal tt <-> (21 <= List.length hand)%nat)
  /\ (drawHandLandmarks hand = TypeError <-> (List.length hand < 21)%nat).
Proof.
  destruct (Nat.lt_ge_cases (List.length hand) 21) as [Hlt|Hge].
  - rewrite (drawHandLandmarks_short hand Hlt).
    split; split; intros H; try discriminate H; try reflexivity; lia.
  - rewrite (drawHandLandmarks_long hand Hge).
    split; split; intros H; try discriminate H; try reflexivity; lia.
Qed.

Lemma sumRatios_missing_tip (handSize : R) (fingers : list Finger) :
  handSize <> 0 ->
  Exists (fun f => tip f = None) fingers ->
  forall total, sumRatios handSize fingers total = TypeError.
Proof.
  intros Hh Hex. induction Hex as [f rest Hf | f rest _ IH]; intros total.
  - cbn [sumRatios]. unfold fingerRatio. rewrite Hf. reflexivity.
  - cbn [sumRatios]. unfold fingerRatio.
    destruct (tip f) as [t|]; cbn [bind deref]; [|reflexivity].
    destruct (base f) as [b|]; cbn [bind deref]; [|reflexivity].
    rewrite jsdiv_nonzero by exact Hh. cbn [bind]. apply IH.
Qed.

(** A set shorter than 21 landmarks is accepted by [calculateHandOpenness]
    only in the degenerate case: without landmark 9 it raises; with it, it
    returns 0 when the reference is below the threshold and raises otherwise
    (the pinky tip, index 20, is missing). *)
Theorem openness_on_short_sets (landmarks : list Landmark) :
  ((List.length landmarks < 10)%nat ->
   calculateHandOpenness landmarks = TypeError)
  /\ ((10 <= List.length landmarks)%nat ->
      scaleReference landmarks < epsilon ->
      calculateHandOpenness landmarks = Normal 0)
  /\ ((10 <= List.length landmarks < 21)%nat ->
      epsilon <= scaleReference landmarks ->
      calculateHandOpenness landmarks = TypeError).
Proof.
  split; [|split].
  - intros H. unfold calculateHandOpenness.
    assert (H9 : at_ landmarks 9 = None)
      by (apply nth_error_None; lia).
    rewrite H9. destruct (at_ landmarks 0); reflexivity.
  - intros H Hlt.
    apply openness_early_return with (w := pt landmarks 0) (m := pt landmarks 9);
      [apply at_pt; lia | apply at_pt; lia | exact Hlt].
  - intros H Hge. unfold calculateHandOpenness.
    rewrite (at_pt landmarks 0) by lia. rewrite (at_pt landmarks 9) by lia.
    cbn [bind deref]. rewrite handSizeOf_distance.
    fold (scaleReference landmarks).
    destruct (Rlt_dec (scaleReference landmarks) epsilon) as [Hlt|_]; [lra|].
    rewrite sumRatios_missing_tip; [reflexivity | |].
    + pose proof epsilon_pos. lra.
    + unfold fingersOf. do 4 apply Exists_cons_tl. apply Exists_cons_hd.
      cbn [tip]. apply nth_error_None. lia.
Qed.

Lemma openness_on_short_sets_witness :
  calculateHandOpenness (firstn 12 spreadHand) = TypeError
  /\ calculateHandOpenness (firstn 12 collapsedHand) = Normal 0
  /\ calculateHandOpenness (firstn 5 spreadHand) = TypeError.
Proof.
  destruct (openness_on_short_sets (firstn 12 spreadHand)) as (_ & _ & H1).
  destruct (openness_on_short_sets (firstn 12 collapsedHand)) as (_ & H2 & _).
  destruct (openness_on_short_sets (firstn 5 spreadHand)) as (H3 & _ & _).
  split; [|split].
  - apply H1; [simpl; lia|].
    unfold scaleReference, pt. simpl. rewrite distance_onAxis.
    replace (1 - 0) with 1 by ring. rewrite Rabs_R1. unfold epsilon. lra.
  - apply H2; [simpl; lia|].
    unfold scaleReference, pt. simpl. rewrite distance_onAxis.
    replace (0 - 0) with 0 by ring. rewrite Rabs_R0. apply epsilon_pos.
  - apply H3. simpl. lia.
Defined.

(** A frame whose hand has fewer than 21 landmarks stops with a TypeError at
    the preview drawing: the detection flag, the landmarks and the handedness
    have been stored by then, but neither target is changed and no callback
    is called. *)
Theorem short_hand_frame_aborts (results : Results) (hand : list Landmark)
        (st : State) :
  firstHand results = Some hand ->
  (List.length hand < 21)%nat ->
  let r := onHandResults results st in
  completion r = TypeError
  /\ calls r = []
  /\ isHandDetected (final r) = true
  /\ getLandmarks (final r) = Some hand
  /\ getTargetOpenness (final r) = getTargetOpenness st
  /\ _targetHandRotation (final r) = _targetHandRotation st.
Proof.
  intros Hfirst Hlen r. subst r.
  rewrite (onHandResults_hand results hand st Hfirst).
  rewrite (drawHandLandmarks_short hand Hlen).
  unfold ingested. destruct (firstLabel results); repeat split; reflexivity.
Qed.

(** ** Openness as a function of the hand's shape *)

(** The value of [calculateHandOpenness] on a 21-point set, both branches. *)
Lemma openness_value (landmarks : list Landmark) :
  List.length landmarks = 21%nat ->
  calculateHandOpenness landmarks
  = Normal (if Rlt_dec (scaleReference landmarks) epsilon then 0
            else opennessFrom 2 landmarks).
Proof.
  intros Hlen. destruct (Rlt_dec (scaleReference landmarks) epsilon) as [Hlt|Hge].
  - apply openness_early_return with (w := pt landmarks 0) (m := pt landmarks 9);
      [apply at_pt; lia | apply at_pt; lia | exact Hlt].
  - apply openness_closed_form; [exact Hlen | lra].
Qed.

Lemma distance_translate (dx dy dz : R) (p q : Landmark) :
  distance (translate dx dy dz p) (translate dx dy dz q) = distance p q.
Proof.
  unfold distance, translate. cbn [lx ly lz orZero]. f_equal. ring.
Qed.

Lemma pt_map (f : Landmark -> Landmark) (landmarks : list Landmark) (i : nat) :
  (i < List.length landmarks)%nat ->
  pt (map f landmarks) i = f (pt landmarks i).
Proof.
  intros Hi. unfold pt.
  rewrite nth_indep with (d' := f origin) by (rewrite length_map; exact Hi).
  apply map_nth.
Qed.

(** Moving the whole hand (every landmark by the same vector) leaves the
    openness unchanged, on both sides of the degenerate-reference guard. *)
Theorem openness_translation_invariant (dx dy dz : R) (landmarks : list Landmark) :
  List.length landmarks = 21%nat ->
  calculateHandOpenness (map (translate dx dy dz) landmarks)
  = calculateHandOpenness landmarks.
Proof.
  intros Hlen.
  rewrite (openness_value landmarks Hlen).
  rewrite openness_value by (rewrite length_map; exact Hlen).
  assert (Hd : forall i j, (i < 21)%nat -> (j < 21)%nat ->
             distance (pt (map (translate dx dy dz) landmarks) i)
                      (pt (map (translate dx dy dz) landmarks) j)
             = distance (pt landmarks i) (pt landmarks j)).
  { intros i j Hi Hj. rewrite !pt_map by lia. apply distance_translate. }
  unfold opennessFrom, extensionRatio, scaleReference.
  rewrite !Hd by lia. reflexivity.
Qed.

Lemma openness_translation_invariant_witness :
  calculateHandOpenness (map (translate 0.25 0.5 (-1)) spreadHand)
  = calculateHandOpenness spreadHand.
Proof.
  apply (openness_translation_invariant 0.25 0.5 (-1) spreadHand). reflexivity.
Defined.

Lemma distance_refl (p : Landmark) : distance p p = 0.
Proof.
  unfold distance.
  replace ((lx p - lx p) * (lx p - lx p) + (ly p - ly p) * (ly p - ly p)
           + (orZero (lz p) - orZero (lz p)) * (orZero (lz p) - orZero (lz p)))
    with 0 by ring.
  apply sqrt_0.
Qed.

Lemma clamp01_below (v : R) : v <= 0 -> clamp01 v = 0.
Proof.
  intros H. unfold clamp01. apply Rmax_left.
  apply Rle_trans with v; [apply Rmin_r | exact H].
Qed.

Lemma clamp01_monotone (v w : R) : v <= w -> clamp01 v <= clamp01 w.
Proof.
  intros H. unfold clamp01. apply Rmax_lub.
  - apply Rmax_l.
  - apply Rle_trans with (Rmin 1 w); [|apply Rmax_r].
    apply Rmin_glb; [apply Rmin_l|].
    apply Rle_trans with v; [apply Rmin_r | exact H].
Qed.

Lemma opennessFrom_meanRatio (landmarks : list Landmark) :
  opennessFrom 2 landmarks
  = clamp01 ((meanRatio landmarks - minRatio) / (maxRatio - minRatio)).
Proof. reflexivity. Qed.

(** A closed fist, every fingertip on its base joint, reads as openness 0,
    whatever the reference is. *)
Theorem openness_closed_fist (landmarks : list Landmark) :
  List.length landmarks = 21%nat ->
  pt landmarks 4 = pt landmarks 2 ->
  pt landmarks 8 = pt landmarks 5 ->
  pt landmarks 12 = pt landmarks 9 ->
  pt landmarks 16 = pt landmarks 13 ->
  pt landmarks 20 = pt landmarks 17 ->
  calculateHandOpenness landmarks = Normal 0.
Proof.
  intros Hlen H4 H8 H12 H16 H20.
  rewrite (openness_value landmarks Hlen).
  destruct (Rlt_dec (scaleReference landmarks) epsilon) as [_|Hge];
    [reflexivity|].
  f_equal. unfold opennessFrom, extensionRatio.
  rewrite H4, H8, H12, H16, H20, !distance_refl.
  apply clamp01_below. unfold minRatio, maxRatio.
  assert (Hnz : scaleReference landmarks <> 0)
    by (pose proof epsilon_pos; lra).
  replace ((0 / scaleReference landmarks + 0 / scaleReference landmarks
            + 0 / scaleReference landmarks + 0 / scaleReference landmarks
            + 0 / scaleReference landmarks) / 5) with 0 by (field; exact Hnz).
  lra.
Qed.

Lemma openness_closed_fist_witness :
  calculateHandOpenness fistHand = Normal 0.
Proof.
  apply (openness_closed_fist fistHand); reflexivity.
Defined.

(** The remapping saturates exactly at the calibration bounds: on a 21-point
    set whose reference is at least the threshold the openness is 0 exactly
    when the mean extension ratio is at most 0.45, and 1 exactly when it is
    at least 0.85. *)
Theorem openness_saturation (landmarks : list Landmark) :
  List.length landmarks = 21%nat ->
  epsilon <= scaleReference landmarks ->
  (calculateHandOpenness landmarks = Normal 0 <-> meanRatio landmarks <= 0.45)
  /\ (calculateHandOpenness landmarks = Normal 1 <-> 0.85 <= meanRatio landmarks).
Proof.
  intros Hlen Href.
  rewrite (openness_closed_form landmarks Hlen Href), opennessFrom_meanRatio.
  set (m := meanRatio landmarks).
  set (v := (m - minRatio) / (maxRatio - minRatio)).
  assert (Hv : v = (m - 0.45) / 0.4)
    by (unfold v, minRatio, maxRatio; lra).
  assert (Hcases : v <= 0 \/ 0 < v < 1 \/ 1 <= v) by lra.
  split; split; intros H.
  - injection H as H. destruct Hcases as [Hc|[Hc|Hc]].
    + lra.
    + rewrite clamp01_inside in H by lra. lra.
    + rewrite clamp01_above in H by exact Hc. lra.
  - f_equal. apply clamp01_below. lra.
  - injection H as H. destruct Hcases as [Hc|[Hc|Hc]].
    + rewrite clamp01_below in H by exact Hc. lra.
    + rewrite clamp01_inside in H by lra. lra.
    + lra.
  - f_equal. apply clamp01_above. lra.
Qed.

Lemma meanRatio_spreadHand : meanRatio spreadHand = 1.
Proof.
  unfold meanRatio. rewrite extensionRatio_spreadHand_thumb_mcp.
  unfold extensionRatio. rewrite scaleReference_spreadHand.
  unfold pt, spreadHand. simpl. rewrite !distance_onAxis.
  replace (1 - 0) with 1 by ring. replace (2 - 1) with 1 by ring.
  rewrite Rabs_R1. lra.
Qed.

Lemma openness_saturation_witness :
  (calculateHandOpenness spreadHand = Normal 0 <-> meanRatio spreadHand <= 0.45)
  /\ (calculateHandOpenness spreadHand = Normal 1 <-> 0.85 <= meanRatio spreadHand).
Proof.
  apply (openness_saturation spreadHand).
  - reflexivity.
  - rewrite scaleReference_spreadHand. unfold epsilon. lra.
Defined.

(** Stretching fingers never lowers the openness: of two 21-point sets with
    references at least the threshold, the one whose five extension ratios
    are all at least the other's has at least the other's openness. *)
Theorem openness_monotone (a b : list Landmark) :
  List.length a = 21%nat -> List.length b = 21%nat ->
  epsilon <= scaleReference a -> epsilon <= scaleReference b ->
  extensionRatio a 4 2 <= extensionRatio b 4 2 ->
  extensionRatio a 8 5 <= extensionRatio b 8 5 ->
  extensionRatio a 12 9 <= extensionRatio b 12 9 ->
  extensionRatio a 16 13 <= extensionRatio b 16 13 ->
  extensionRatio a 20 17 <= extensionRatio b 20 17 ->
  exists oa ob,
    calculateHandOpenness a = Normal oa
    /\ calculateHandOpenness b = Normal ob
    /\ oa <= ob.
Proof.
  intros Ha Hb Hra Hrb H1 H2 H3 H4 H5.
  exists (opennessFrom 2 a), (opennessFrom 2 b).
  split; [apply openness_closed_form; assumption|].
  split; [apply openness_closed_form; assumption|].
  rewrite !opennessFrom_meanRatio. apply clamp01_monotone.
  unfold meanRatio, minRatio, maxRatio.
  apply Rmult_le_compat_r; [lra | lra].
Qed.

Lemma openness_monotone_witness :
  exists oa ob,
    calculateHandOpenness fistHand = Normal oa
    /\ calculateHandOpenness spreadHand = Normal ob
    /\ oa <= ob.
Proof.
  assert (Hf : scaleReference fistHand = 1).
  { unfold scaleReference, pt, fistHand. simpl. rewrite distance_onAxis.
    replace (1 - 0) with 1 by ring. apply Rabs_R1. }
  assert (Hz : forall t b, pt fistHand t = pt fistHand b ->
                           extensionRatio fistHand t b = 0).
  { intros t b E. unfold extensionRatio. rewrite E, distance_refl, Hf. lra. }
  assert (Hs : forall t b, 0 <= extensionRatio spreadHand t b).
  { intros t b. unfold extensionRatio. rewrite scaleReference_spreadHand.
    pose proof (distance_nonneg (pt spreadHand t) (pt spreadHand b)). lra. }
  apply (openness_monotone fistHand spreadHand);
    try reflexivity;
    try (rewrite Hf; unfold epsilon; lra);
    try (rewrite scaleReference_spreadHand; unfold epsilon; lra);
    (rewrite Hz by reflexivity; apply Hs).
Defined.

(** ** The orientation basis: what it depends on, and its degenerate case *)

Lemma length_zero_inv (v : Vector3) : length v = 0 -> v = zeroVector.
Proof.
  intros Hl.
  pose proof (length_sqr v) as Hs. rewrite Hl in Hs.
  destruct v as [a b c]. unfold dot in Hs. simpl in Hs. unfold zeroVector.
  assert (a = 0) by nra. assert (b = 0) by nra. assert (c = 0) by nra.
  subst. reflexivity.
Qed.

Lemma length_nonneg (v : Vector3) : 0 <= length v.
Proof. unfold length. apply sqrt_pos. Qed.

Lemma length_multiplyScalar (v : Vector3) (k : R) :
  0 <= k -> length (multiplyScalar v k) = k * length v.
Proof.
  intros Hk. unfold length, multiplyScalar. cbn [vx vy vz].
  replace (vx v * k * (vx v * k) + vy v * k * (vy v * k) + vz v * k * (vz v * k))
    with (Rsqr k * (vx v * vx v + vy v * vy v + vz v * vz v))
    by (unfold Rsqr; ring).
  rewrite sqrt_mult_alt by apply Rle_0_sqr.
  rewrite sqrt_Rsqr by exact Hk. reflexivity.
Qed.

Lemma normalize_zeroVector : normalize zeroVector = zeroVector.
Proof.
  unfold normalize, divideScalar, multiplyScalar, zeroVector. cbn [vx vy vz].
  f_equal; ring.
Qed.

(** [normalize] does not see a positive factor. *)
Lemma normalize_multiplyScalar (v : Vector3) (k : R) :
  0 < k -> normalize (multiplyScalar v k) = normalize v.
Proof.
  intros Hk. destruct (Req_dec_T (length v) 0) as [Hz|Hnz].
  - rewrite (length_zero_inv v Hz).
    replace (multiplyScalar zeroVector k) with zeroVector
      by (unfold multiplyScalar, zeroVector; cbn [vx vy vz]; f_equal; ring).
    reflexivity.
  - unfold normalize, divideScalar.
    rewrite length_multiplyScalar by lra.
    destruct (Req_dec_T (k * length v) 0) as [H0|_];
      [exfalso; apply Rmult_integral in H0; destruct H0; [lra | contradiction]|].
    destruct (Req_dec_T (length v) 0) as [H0|_]; [contradiction|].
    unfold multiplyScalar. cbn [vx vy vz]. f_equal; field; split; lra.
Qed.

(** [normalize] always multiplies by some factor. *)
Lemma normalize_factor (v : Vector3) :
  exists s : R, normalize v = multiplyScalar v s.
Proof.
  unfold normalize, divideScalar. eexists. reflexivity.
Qed.

Lemma cross_multiplyScalar (a b : Vector3) (s t : R) :
  crossVectors (multiplyScalar a s) (multiplyScalar b t)
  = multiplyScalar (crossVectors a b) (s * t).
Proof.
  unfold crossVectors, multiplyScalar. cbn [vx vy vz]. f_equal; ring.
Qed.

Lemma multiplyScalar_zeroVector (s : R) : multiplyScalar zeroVector s = zeroVector.
Proof.
  unfold multiplyScalar, zeroVector. cbn [vx vy vz]. f_equal; ring.
Qed.

Lemma cross_zeroVector_r (a : Vector3) : crossVectors a zeroVector = zeroVector.
Proof.
  unfold crossVectors, zeroVector. cbn [vx vy vz]. f_equal; ring.
Qed.

(** The basis depends on the landmarks through the two normalized candidate
    vectors only. *)
Lemma basisOf_congr (w i p m w' i' p' m' : Vector3) :
  normalize (subVectors m' w') = normalize (subVectors m w) ->
  normalize (subVectors i' p') = normalize (subVectors i p) ->
  basisOf w' i' p' m' = basisOf w i p m.
Proof.
  intros Hu Hr. unfold basisOf. rewrite Hu, Hr. reflexivity.
Qed.

Lemma handBasis_map (f : Landmark -> Landmark) (landmarks : list Landmark) :
  (forall a b, normalize (subVectors (toVector3 (f a)) (toVector3 (f b)))
               = normalize (subVectors (toVector3 a) (toVector3 b))) ->
  handBasis (map f landmarks) = handBasis landmarks.
Proof.
  intros Hf. unfold handBasis, at_. rewrite !nth_error_map.
  destruct (nth_error landmarks 0) as [l0|]; [|reflexivity].
  destruct (nth_error landmarks 5) as [l5|]; [|reflexivity].
  destruct (nth_error landmarks 17) as [l17|]; [|reflexivity].
  destruct (nth_error landmarks 9) as [l9|]; [|reflexivity].
  cbn [option_map deref bind]. f_equal. apply basisOf_congr; apply Hf.
Qed.

Lemma subVectors_translate (dx dy dz : R) (a b : Landmark) :
  subVectors (toVector3 (translate dx dy dz a)) (toVector3 (translate dx dy dz b))
  = subVectors (toVector3 a) (toVector3 b).
Proof.
  unfold subVectors, toVector3, translate. cbn [vx vy vz lx ly lz orZero].
  f_equal; ring.
Qed.

Lemma subVectors_scaleAbout (k : R) (w a b : Landmark) :
  subVectors (toVector3 (scaleAbout k w a)) (toVector3 (scaleAbout k w b))
  = multiplyScalar (subVectors (toVector3 a) (toVector3 b)) k.
Proof.
  unfold subVectors, toVector3, scaleAbout, multiplyScalar.
  cbn [vx vy vz lx ly lz orZero]. f_equal; ring.
Qed.

(** The orientation does not depend on where the hand is nor on how large it
    appears: moving every landmark by the same vector, or scaling every
    landmark by [k > 0] about the wrist, leaves the result of
    [calculateHandRotation] unchanged (error cases included). *)
Theorem rotation_position_and_scale_invariant
        (k dx dy dz : R) (landmarks : list Landmark) :
  0 < k ->
  calculateHandRotation (map (translate dx dy dz) landmarks)
  = calculateHandRotation landmarks
  /\ calculateHandRotation (scaleLandmarks k landmarks)
     = calculateHandRotation landmarks.
Proof.
  intros Hk. unfold calculateHandRotation, scaleLandmarks.
  rewrite !handBasis_map.
  - split; reflexivity.
  - intros a b. rewrite subVectors_scaleAbout.
    apply normalize_multiplyScalar. exact Hk.
  - intros a b. rewrite subVectors_translate. reflexivity.
Qed.

Lemma cross_zeroVector_l (a : Vector3) : crossVectors zeroVector a = zeroVector.
Proof.
  unfold crossVectors, zeroVector. cbn [vx vy vz]. f_equal; ring.
Qed.

Lemma subVectors_same (a b : Vector3) : a = b -> subVectors a b = zeroVector.
Proof.
  intros ->. unfold subVectors, zeroVector. f_equal; ring.
Qed.

(** When two of the landmarks a candidate vector is taken between coincide
    (the index base on the pinky base, or the middle base on the wrist), the
    candidate is the zero vector, which [normalize] leaves as it is; nothing
    is raised, and the forward and right vectors of the basis are the zero
    vector, so the basis is not orthonormal. *)
Theorem coincident_landmarks_give_singular_basis
        (landmarks : list Landmark) (wrist indexMCP pinkyMCP middleMCP : Landmark) :
  at_ landmarks 0 = Some wrist ->
  at_ landmarks 5 = Some indexMCP ->
  at_ landmarks 17 = Some pinkyMCP ->
  at_ landmarks 9 = Some middleMCP ->
  toVector3 indexMCP = toVector3 pinkyMCP
  \/ toVector3 middleMCP = toVector3 wrist ->
  exists b : Basis,
    handBasis landmarks = Normal b
    /\ handRight b = zeroVector
    /\ handForward b = zeroVector
    /\ ~ orthonormal b.
Proof.
  intros H0 H5 H17 H9 Hsame.
  exists (basisOf (toVector3 wrist) (toVector3 indexMCP)
                  (toVector3 pinkyMCP) (toVector3 middleMCP)).
  split; [unfold handBasis; rewrite H0, H5, H17, H9; reflexivity|].
  unfold basisOf.
  set (U := subVectors (toVector3 middleMCP) (toVector3 wrist)).
  set (Rt := subVectors (toVector3 indexMCP) (toVector3 pinkyMCP)).
  assert (Hf : normalize (crossVectors (normalize Rt) (normalize U)) = zeroVector).
  { destruct Hsame as [Hs|Hs].
    - unfold Rt. rewrite (subVectors_same _ _ Hs), normalize_zeroVector,
        cross_zeroVector_l. apply normalize_zeroVector.
    - unfold U. rewrite (subVectors_same _ _ Hs), normalize_zeroVector,
        cross_zeroVector_r. apply normalize_zeroVector. }
  assert (Hr : normalize (crossVectors (normalize U)
                 (normalize (crossVectors (normalize Rt) (normalize U))))
               = zeroVector).
  { rewrite Hf, cross_zeroVector_r. apply normalize_zeroVector. }
  cbn [handRight handForward]. rewrite Hr, Hf.
  split; [reflexivity|]. split; [reflexivity|].
  unfold orthonormal. cbn [handRight handUp handForward].
  intros (_ & _ & _ & Hlen & _).
  unfold length, zeroVector in Hlen. cbn [vx vy vz] in Hlen.
  replace (0 * 0 + 0 * 0 + 0 * 0) with 0 in Hlen by ring.
  rewrite sqrt_0 in Hlen. lra.
Qed.

Lemma dot_cross_left (a b : Vector3) : dot (crossVectors a b) a = 0.
Proof. unfold dot, crossVectors. simpl. ring. Qed.

Lemma dot_multiplyScalar_r (v w : Vector3) (s : R) :
  dot v (multiplyScalar w s) = s * dot v w.
Proof. unfold dot, multiplyScalar. simpl. ring. Qed.

(** A dot product with a nonzero vector, through its normalized vector. *)
Lemma dot_normalize_back (v w : Vector3) :
  v <> zeroVector -> dot w v = length v * dot w (normalize v).
Proof.
  intros Hv. rewrite normalize_scale by exact Hv.
  rewrite dot_multiplyScalar_r. field. exact (length_nonzero v Hv).
Qed.

Lemma length_pos (v : Vector3) : v <> zeroVector -> 0 < length v.
Proof.
  intros Hv. pose proof (length_nonneg v). pose proof (length_nonzero v Hv). lra.
Qed.

(** In the non-degenerate case the basis keeps the directions it was built
    from: up points from the wrist to the middle base, the re-orthogonalized
    right is on the side of the index base as seen from the pinky base
    (positive dot products), and forward, the palm normal, is perpendicular
    to both candidate vectors. *)
Theorem basis_keeps_directions
        (landmarks : list Landmark) (wrist indexMCP pinkyMCP middleMCP : Landmark) :
  at_ landmarks 0 = Some wrist ->
  at_ landmarks 5 = Some indexMCP ->
  at_ landmarks 17 = Some pinkyMCP ->
  at_ landmarks 9 = Some middleMCP ->
  let up := subVectors (toVector3 middleMCP) (toVector3 wrist) in
  let right := subVectors (toVector3 indexMCP) (toVector3 pinkyMCP) in
  up <> zeroVector -> right <> zeroVector ->
  crossVectors right up <> zeroVector ->
  exists b : Basis,
    handBasis landmarks = Normal b
    /\ 0 < dot (handUp b) up
    /\ 0 < dot (handRight b) right
    /\ dot (handForward b) up = 0
    /\ dot (handForward b) right = 0.
Proof.
  intros H0 H5 H17 H9 U Rt HU HR Hcross.
  exists (basisOf (toVector3 wrist) (toVector3 indexMCP)
                  (toVector3 pinkyMCP) (toVector3 middleMCP)).
  split; [unfold handBasis; rewrite H0, H5, H17, H9; reflexivity|].
  unfold basisOf. fold U. fold Rt. cbn [handRight handUp handForward].
  set (u := normalize U). set (r := normalize Rt).
  set (c := crossVectors r u).
  assert (Hc : c <> zeroVector) by (apply cross_normalize_nonzero; assumption).
  pose proof (length_pos U HU) as HlU.
  pose proof (length_pos Rt HR) as HlR.
  pose proof (length_pos c Hc) as Hlc.
  assert (Huu : dot u u = 1) by (apply normalize_unit; exact HU).
  assert (Hff : dot (normalize c) (normalize c) = 1)
    by (apply normalize_unit; exact Hc).
  assert (Huf : dot u (normalize c) = 0).
  { rewrite dot_sym, normalize_scale by exact Hc.
    rewrite dot_multiplyScalar_l. unfold c. rewrite dot_cross_right. ring. }
  assert (Hcc : dot (crossVectors u (normalize c)) (crossVectors u (normalize c)) = 1).
  { transitivity (dot u u * dot (normalize c) (normalize c)
                  - dot u (normalize c) * dot u (normalize c)).
    - unfold dot, crossVectors. simpl. ring.
    - rewrite Huu, Hff, Huf. ring. }
  rewrite (normalize_of_unit _ Hcc).
  rewrite !(dot_normalize_back U _ HU), !(dot_normalize_back Rt _ HR).
  fold u. fold r.
  assert (Hfr : dot (normalize c) r = 0).
  { rewrite normalize_scale by exact Hc. rewrite dot_multiplyScalar_l.
    unfold c. rewrite dot_cross_left. ring. }
  assert (Hfc : dot (normalize c) c = length c).
  { rewrite normalize_scale by exact Hc. rewrite dot_multiplyScalar_l.
    rewrite <- length_sqr. field. lra. }
  assert (Htriple : dot (crossVectors u (normalize c)) r = dot (normalize c) c).
  { unfold c, dot, crossVectors. simpl. ring. }
  split; [rewrite Huu; lra|].
  split; [rewrite Htriple, Hfc; apply Rmult_lt_0_compat; assumption|].
  split.
  - rewrite (dot_sym (normalize c) u), Huf. ring.
  - rewrite Hfr. ring.
Qed.

(** Without three.js [calculateHandRotation] returns null and reads no
    landmark; with it, it raises a TypeError exactly on the sets that lack
    one of the landmarks 0, 5, 9, 17, that is, on sets of fewer than 18
    landmarks, and returns a quaternion on all others. *)
Theorem rotation_availability (landmarks : list Landmark) :
  (THREE_defined = false -> calculateHandRotation landmarks = Normal None)
  /\ (THREE_defined = true ->
      (List.length landmarks < 18)%nat ->
      calculateHandRotation landmarks = TypeError)
  /\ (THREE_defined = true ->
      (18 <= List.length landmarks)%nat ->
      exists q, calculateHandRotation landmarks = Normal (Some q)).
Proof.
  unfold calculateHandRotation. split; [|split].
  - intros ->. reflexivity.
  - intros -> Hlen. cbn [negb]. unfold handBasis.
    assert (H17 : at_ landmarks 17 = None) by (apply nth_error_None; lia).
    rewrite H17.
    destruct (at_ landmarks 0); [|reflexivity].
    destruct (at_ landmarks 5); reflexivity.
  - intros -> Hlen. cbn [negb]. unfold handBasis.
    rewrite (at_pt landmarks 0), (at_pt landmarks 5), (at_pt landmarks 17),
      (at_pt landmarks 9) by lia.
    eexists. reflexivity.
Qed.

(** ** What ticks and frames leave alone *)

Lemma tick_keeps_inputs (st : State) :
  let st' := final (updateHandTracking st) in
  _isHandDetected st' = _isHandDetected st
  /\ _landmarks st' = _landmarks st
  /\ _handedness st' = _handedness st
  /\ _targetHandOpenness st' = _targetHandOpenness st
  /\ _targetHandRotation st' = _targetHandRotation st
  /\ _onHandUpdate st' = _onHandUpdate st
  /\ _onHandLost st' = _onHandLost st
  /\ _showCameraFeed st' = _showCameraFeed st.
Proof.
  rewrite updateHandTracking_run.
  destruct (_isHandDetected st) eqn:Hd; [|cbn; rewrite Hd; repeat split].
  destruct (_targetHandRotation st) eqn:Ht;
    [|cbn; rewrite Hd, Ht; repeat split].
  destruct (_smoothedHandRotation st);
    [|cbn; rewrite Hd, Ht; repeat split].
  destruct (_handRotation st); cbn; rewrite Hd, Ht; repeat split.
Qed.

Lemma frame_keeps_published (results : Results) (st : State) :
  let st' := final (onHandResults results st) in
  _handOpenness st' = _handOpenness st
  /\ _smoothedOpenness st' = _smoothedOpenness st
  /\ _handRotation st' = _handRotation st
  /\ _smoothedHandRotation st' = _smoothedHandRotation st
  /\ _onHandUpdate st' = _onHandUpdate st
  /\ _onHandLost st' = _onHandLost st
  /\ _showCameraFeed st' = _showCameraFeed st.
Proof.
  destruct (firstHand results) as [hand|] eqn:Hfirst.
  - rewrite (onHandResults_hand results hand st Hfirst). unfold ingested.
    destruct (firstLabel results);
      destruct (drawHandLandmarks hand) as [[]| |];
      destruct (calculateHandOpenness hand);
      destruct (calculateHandRotation hand); repeat split.
  - rewrite (onHandResults_lost results st Hfirst). repeat split.
Qed.

(** An update tick changes the smoothed and published values only: the
    detection flag, the stored landmarks, the handedness, both targets, the
    callback slots and the preview flag are as before, and no callback is
    called. *)
Theorem tick_changes_filter_state_only (st : State) :
  let r := updateHandTracking st in
  isHandDetected (final r) = isHandDetected st
  /\ getLandmarks (final r) = getLandmarks st
  /\ getHandedness (final r) = getHandedness st
  /\ getTargetOpenness (final r) = getTargetOpenness st
  /\ _targetHandRotation (final r) = _targetHandRotation st
  /\ _onHandUpdate (final r) = _onHandUpdate st
  /\ _onHandLost (final r) = _onHandLost st
  /\ calls r = [].
Proof.
  destruct (tick_keeps_inputs st) as (H1 & H2 & H3 & H4 & H5 & H6 & H7 & _).
  cbv zeta. repeat (split; [assumption|]).
  rewrite updateHandTracking_run.
  destruct (_isHandDetected st); [|reflexivity].
  destruct (_targetHandRotation st); [|reflexivity].
  destruct (_smoothedHandRotation st); [|reflexivity].
  destruct (_handRotation st); reflexivity.
Qed.

(** A frame, with or without a hand and however it completes, changes
    neither the published nor the smoothed openness and orientation. *)
Theorem frame_leaves_published_values (results : Results) (st : State) :
  let r := onHandResults results st in
  getHandOpenness (final r) = getHandOpenness st
  /\ getHandRotation (final r) = getHandRotation st
  /\ _smoothedOpenness (final r) = _smoothedOpenness st
  /\ _smoothedHandRotation (final r) = _smoothedHandRotation st.
Proof.
  destruct (frame_keeps_published results st) as (H1 & H2 & H3 & H4 & _).
  cbv zeta. repeat split; assumption.
Qed.

(** Which events move the published and smoothed values: the openness ones
    change on update ticks only; the orientation ones on update ticks and on
    the initialisation ([initQuaternions]) only.  Frames, registrations and
    the preview toggle leave all four as they are. *)
Theorem published_values_change_on_tick_or_init_only (st : State) (e : Event) :
  (e <> Tick ->
   getHandOpenness (step st e) = getHandOpenness st
   /\ _smoothedOpenness (step st e) = _smoothedOpenness st)
  /\ (e <> Tick -> e <> Init ->
      getHandRotation (step st e) = getHandRotation st
      /\ _smoothedHandRotation (step st e) = _smoothedHandRotation st).
Proof.
  unfold getHandOpenness, getHandRotation.
  destruct e as [|results| |cb|cb|]; cbn [step].
  - split.
    + intros _. unfold initQuaternions.
      destruct THREE_defined; split; reflexivity.
    + intros _ H. contradiction H. reflexivity.
  - destruct (frame_keeps_published results st) as (H1 & H2 & H3 & H4 & _).
    cbv zeta in H1, H2, H3, H4. split; intros; split; assumption.
  - split; intros H; contradiction H; reflexivity.
  - split; intros; split; reflexivity.
  - split; intros; split; reflexivity.
  - split; intros; split; reflexivity.
Qed.

(** ** What the accessors show in reachable states *)

Lemma step_keeps_detectionConsistent (st : State) (e : Event) :
  detectionConsistent st -> detectionConsistent (step st e).
Proof.
  unfold detectionConsistent. intros H.
  destruct e as [|results| |cb|cb|]; cbn [step].
  - unfold initQuaternions. destruct THREE_defined; exact H.
  - destruct (firstHand results) as [hand|] eqn:Hfirst.
    + rewrite (onHandResults_hand results hand st Hfirst). unfold ingested.
      destruct (firstLabel results);
        destruct (drawHandLandmarks hand) as [[]| |];
        destruct (calculateHandOpenness hand);
        destruct (calculateHandRotation hand);
        cbn; (split; [split; [discriminate | reflexivity] | discriminate]).
    + rewrite (onHandResults_lost results st Hfirst). cbn.
      split; [split; [discriminate | intros Hn; contradiction Hn; reflexivity]
             | reflexivity].
  - destruct (tick_keeps_inputs st) as (E1 & E2 & _ & E4 & _).
    cbv zeta in E1, E2, E4. rewrite E1, E2, E4. exact H.
  - exact H.
  - exact H.
  - exact H.
Qed.

(** In every reachable state the detection accessor is true exactly when a
    landmark set is stored, and while no hand is detected the target openness
    is 0. *)
Theorem detection_landmarks_target_consistent (st : State) :
  reachable st ->
  (isHandDetected st = true <-> getLandmarks st <> None)
  /\ (isHandDetected st = false -> getTargetOpenness st = 0).
Proof.
  intros Hreach. change (detectionConsistent st).
  induction Hreach as [|st e _ IH].
  - split; [split; [discriminate | intros H; contradiction H; reflexivity]
           | reflexivity].
  - apply step_keeps_detectionConsistent. exact IH.
Qed.

(** In every reachable state the published openness and orientation are the
    smoothed ones, and the published openness lies in [0,1]. *)
Theorem published_openness_in_unit_interval (st : State) :
  reachable st ->
  getHandOpenness st = _smoothedOpenness st
  /\ getHandRotation st = _smoothedHandRotation st
  /\ 0 <= getHandOpenness st <= 1.
Proof.
  intros Hreach.
  destruct (published_is_smoothed st Hreach) as [Ho Hr].
  split; [exact Ho|]. split; [exact Hr|].
  unfold getHandOpenness. rewrite Ho.
  assert (Hinv : inUnit (_smoothedOpenness st)
                 /\ inUnit (_targetHandOpenness st)).
  { clear Ho Hr. induction Hreach as [|st e _ IH].
    - unfold inUnit. simpl. lra.
    - apply step_keeps_openness. exact IH. }
  exact (proj1 Hinv).
Qed.

(** In every reachable state an update tick completes normally (the guard on
    the smoothed quaternion also protects the copy into the published one)
    and calls no callback. *)
Theorem tick_never_raises (st : State) :
  reachable st ->
  completion (updateHandTracking st) = Normal tt
  /\ calls (updateHandTracking st) = [].
Proof. exact (tick_completes st). Qed.

Lemma step_keeps_rotations_absent (st : State) (e : Event) :
  THREE_defined = false ->
  _handRotation st = None /\ _targetHandRotation st = None
  /\ _smoothedHandRotation st = None ->
  _handRotation (step st e) = None /\ _targetHandRotation (step st e) = None
  /\ _smoothedHandRotation (step st e) = None.
Proof.
  intros HT H. destruct e as [|results| |cb|cb|]; cbn [step].
  - unfold initQuaternions. rewrite HT. exact H.
  - destruct (firstHand results) as [hand|] eqn:Hfirst.
    + rewrite (onHandResults_hand results hand st Hfirst). unfold ingested.
      unfold calculateHandRotation. rewrite HT. cbn [negb].
      destruct (firstLabel results);
        destruct (drawHandLandmarks hand) as [[]| |];
        destruct (calculateHandOpenness hand); cbn;
        (split; [apply H | split; [first [reflexivity | apply H] | apply H]]).
    + rewrite (onHandResults_lost results st Hfirst). exact H.
  - rewrite updateHandTracking_run.
    destruct H as (Hh & Ht & Hs). rewrite Ht.
    destruct (_isHandDetected st); cbn; repeat split; assumption.
  - exact H.
  - exact H.
  - exact H.
Qed.

(** Without three.js the module still runs, openness only: in every
    reachable state the published, target and smoothed orientations are
    null. *)
Theorem rotation_null_without_three (st : State) :
  THREE_defined = false ->
  reachable st ->
  getHandRotation st = None
  /\ _targetHandRotation st = None
  /\ _smoothedHandRotation st = None.
Proof.
  intros HT Hreach. unfold getHandRotation.
  induction Hreach as [|st e _ IH].
  - repeat split.
  - apply step_keeps_rotations_absent; assumption.
Qed.

(** Once the published orientation exists it exists for good: no frame, tick,
    initialisation or registration makes it null again. *)
Theorem published_rotation_stays (st : State) (e : Event) :
  getHandRotation st <> None -> getHandRotation (step st e) <> None.
Proof.
  unfold getHandRotation. intros H.
  destruct e as [|results| |cb|cb|]; cbn [step].
  - unfold initQuaternions. destruct THREE_defined; [|exact H].
    run_module. discriminate.
  - destruct (firstHand results) as [hand|] eqn:Hfirst.
    + rewrite (onHandResults_hand results hand st Hfirst). unfold ingested.
      destruct (firstLabel results);
        destruct (drawHandLandmarks hand) as [[]| |];
        destruct (calculateHandOpenness hand);
        destruct (calculateHandRotation hand); exact H.
    + rewrite (onHandResults_lost results st Hfirst). exact H.
  - rewrite updateHandTracking_run.
    destruct (_isHandDetected st); [|exact H].
    destruct (_targetHandRotation st); [|exact H].
    destruct (_smoothedHandRotation st); [|exact H].
    destruct (_handRotation st) eqn:Hh; [cbn; discriminate | contradiction].
  - exact H.
  - exact H.
  - exact H.
Qed.

(** ** Callbacks, registrations and the preview flag *)

(** A frame calls at most one callback: the update callback only on a frame
    with a hand, the lost callback only on a frame without one, and only the
    callback that is registered when the frame arrives. *)
Theorem frame_calls_at_most_one_callback (results : Results) (st : State) :
  let r := onHandResults results st in
  calls r = []
  \/ (exists cb data,
         calls r = [HandUpdate cb data]
         /\ _onHandUpdate st = Some cb /\ firstHand results <> None)
  \/ (exists cb,
         calls r = [HandLost cb]
         /\ _onHandLost st = Some cb /\ firstHand results = None).
Proof.
  cbv zeta. destruct (firstHand results) as [hand|] eqn:Hfirst.
  - rewrite (onHandResults_hand results hand st Hfirst).
    destruct (drawHandLandmarks hand) as [[]| |]; [|left; reflexivity..].
    destruct (calculateHandOpenness hand); [|left; reflexivity..].
    destruct (calculateHandRotation hand); [|left; reflexivity..].
    destruct (_onHandUpdate st) as [cb|]; [|left; reflexivity].
    right. left. eexists. eexists.
    split; [reflexivity|]. split; [reflexivity | discriminate].
  - rewrite (onHandResults_lost results st Hfirst).
    destruct (_onHandLost st) as [cb|]; [|left; reflexivity].
    right. right. exists cb. repeat split.
Qed.

(** The callback slots hold one callback each: registering replaces whatever
    was registered (so a frame's calls after two registrations are those
    after the second alone), registering nothing silences the slot, and
    neither registration touches the other slot. *)
Theorem registration_replaces (results : Results) (st : State)
        (first second : option Callback) :
  calls (onHandResults results
           (final (setOnHandUpdate second (final (setOnHandUpdate first st)))))
  = calls (onHandResults results (final (setOnHandUpdate second st)))
  /\ calls (onHandResults results
              (final (setOnHandLost second (final (setOnHandLost first st)))))
     = calls (onHandResults results (final (setOnHandLost second st)))
  /\ (firstHand results <> None ->
      calls (onHandResults results (final (setOnHandUpdate None st))) = [])
  /\ (firstHand results = None ->
      calls (onHandResults results (final (setOnHandLost None st))) = [])
  /\ _onHandLost (final (setOnHandUpdate second st)) = _onHandLost st
  /\ _onHandUpdate (final (setOnHandLost second st)) = _onHandUpdate st.
Proof.
  split; [reflexivity|]. split; [reflexivity|].
  split; [|split; [|split; reflexivity]].
  - intros Hhand. destruct (firstHand results) as [hand|] eqn:Hfirst;
      [|contradiction].
    rewrite (onHandResults_hand results hand _ Hfirst).
    destruct (drawHandLandmarks hand) as [[]| |]; [|reflexivity..].
    destruct (calculateHandOpenness hand); [|reflexivity..].
    destruct (calculateHandRotation hand); reflexivity.
  - intros Hfirst. rewrite (onHandResults_lost results _ Hfirst). reflexivity.
Qed.

(** [toggleCameraFeed] returns the new value of the flag, changes nothing
    else, and two toggles in a row give the state back. *)
Theorem toggleCameraFeed_involutive (st : State) :
  let r := toggleCameraFeed st in
  completion r = Normal (negb (_showCameraFeed st))
  /\ _showCameraFeed (final r) = negb (_showCameraFeed st)
  /\ final r = set_showCameraFeed (negb (_showCameraFeed st)) st
  /\ final (toggleCameraFeed (final r)) = st.
Proof.
  cbv zeta. unfold toggleCameraFeed. run_module.
  repeat split. destruct st. cbn. rewrite negb_involutive. reflexivity.
Qed.

(** ** What a frame stores *)

(** A frame with a hand and a handedness entry stores the entry's label as
    the handedness, before anything that can fail: the accessor reports it
    even if the frame then stops on a short landmark set. *)
Theorem handedness_follows_label (results : Results) (hand : list Landmark)
        (label : string) (st : State) :
  firstHand results = Some hand ->
  firstLabel results = Some label ->
  getHandedness (final (onHandResults results st)) = label.
Proof.
  intros Hfirst Hlabel.
  rewrite (onHandResults_hand results hand st Hfirst). unfold ingested.
  rewrite Hlabel.
  destruct (drawHandLandmarks hand) as [[]| |];
    destruct (calculateHandOpenness hand);
    destruct (calculateHandRotation hand); reflexivity.
Qed.

(** A frame with a 21-point hand stores what the two computations return:
    the target openness is the value of [calculateHandOpenness], in [0,1],
    and the target orientation is the result of [calculateHandRotation], a
    quaternion exactly when three.js is there. *)
Theorem frame_sets_targets (results : Results) (hand : list Landmark)
        (st : State) :
  firstHand results = Some hand ->
  List.length hand = 21%nat ->
  let st' := final (onHandResults results st) in
  calculateHandOpenness hand = Normal (getTargetOpenness st')
  /\ 0 <= getTargetOpenness st' <= 1
  /\ calculateHandRotation hand = Normal (_targetHandRotation st')
  /\ (_targetHandRotation st' <> None <-> THREE_defined = true)
  /\ isHandDetected st' = true.
Proof.
  intros Hfirst Hlen. cbv zeta.
  rewrite (onHandResults_hand results hand st Hfirst).
  rewrite (drawHandLandmarks_complete hand Hlen).
  destruct (calculateHandOpenness_complete hand Hlen) as [o Ho].
  destruct (calculateHandRotation_complete hand Hlen) as [q Hq].
  rewrite Ho, Hq. unfold ingested.
  assert (Hq' : q <> None <-> THREE_defined = true).
  { revert Hq. unfold calculateHandRotation.
    destruct THREE_defined; cbn [negb].
    - destruct (handBasis hand); cbn [bind]; intros Hq; try discriminate Hq.
      injection Hq as <-. split; [reflexivity | discriminate].
    - intros Hq. injection Hq as <-.
      split; [intros H; contradiction H; reflexivity | discriminate]. }
  destruct (firstLabel results); cbn;
    (split; [reflexivity|]); (split; [exact (openness_range hand o Ho)|]);
    (split; [reflexivity|]); (split; [exact Hq' | reflexivity]).
Qed.

Lemma ticks_published (n : nat) (st : State) :
  _handOpenness (ticks (S n) st) = _smoothedOpenness (ticks (S n) st).
Proof.
  revert st. induction n as [|n IH]; intros st.
  - unfold ticks, run. cbn [repeat fold_left step]. apply tick_handOpenness.
  - rewrite (ticks_S (S n)). apply IH.
Qed.

(** After a frame without a hand the smoothed openness decays geometrically:
    [n] ticks later it is (1 - 0.12)^n times what it was, and so is the
    published one from the first tick on. *)
Theorem openness_decays_after_loss (results : Results) (st : State) (n : nat) :
  firstHand results = None ->
  let st' := ticks n (final (onHandResults results st)) in
  _smoothedOpenness st' = (1 - 0.12) ^ n * _smoothedOpenness st
  /\ ((0 < n)%nat -> getHandOpenness st' = (1 - 0.12) ^ n * _smoothedOpenness st).
Proof.
  intros Hfirst. cbv zeta.
  set (lost := final (onHandResults results st)).
  assert (Ht : _targetHandOpenness lost = 0)
    by (unfold lost; rewrite (onHandResults_lost results st Hfirst); reflexivity).
  assert (Hs : _smoothedOpenness lost = _smoothedOpenness st)
    by (unfold lost; rewrite (onHandResults_lost results st Hfirst); reflexivity).
  pose proof (ticks_gap n lost) as Hgap. rewrite Ht, Hs in Hgap.
  fold SMOOTHING.
  assert (Hval : _smoothedOpenness (ticks n lost)
                 = (1 - SMOOTHING) ^ n * _smoothedOpenness st) by lra.
  split; [exact Hval|].
  intros Hn. rewrite <- Hval. destruct n as [|n]; [lia|].
  apply ticks_published.
Qed.

(** ** Consumers *)

Lemma easeOutCubic_unit (x : R) :
  0 <= x <= 1 ->
  0 <= easeOutCubic x <= 1
  /\ (easeOutCubic x = 0 <-> x = 0)
  /\ (easeOutCubic x = 1 <-> x = 1).
Proof.
  intros [H0 H1]. unfold easeOutCubic. simpl pow.
  set (y := 1 - x). assert (Hy : 0 <= y <= 1) by (unfold y; lra).
  assert (Hyy : 0 <= y * y <= y) by nra.
  assert (Hyyy : 0 <= y * (y * (y * 1)) <= y * y) by nra.
  split; [lra|]. split; split; intros H.
  - assert (y = 1) by nra. unfold y in *. lra.
  - assert (y = 1) by (unfold y; lra). nra.
  - assert (Hz : y * (y * (y * 1)) = 0) by lra.
    assert (y = 0).
    { destruct (Rmult_integral _ _ Hz) as [E|E]; [exact E|].
      destruct (Rmult_integral _ _ E) as [E'|E']; [exact E' | lra]. }
    unfold y in *. lra.
  - assert (y = 0) by (unfold y; lra). nra.
Qed.

Lemma easeOutCubic_monotone (x y : R) :
  0 <= x -> x <= y -> y <= 1 -> easeOutCubic x <= easeOutCubic y.
Proof.
  intros H0 Hxy H1. unfold easeOutCubic. simpl pow.
  set (a := 1 - x). set (b := 1 - y).
  assert (Hb : 0 <= b) by (unfold b; lra).
  assert (Hab : b <= a) by (unfold a, b; lra).
  assert (H2 : b * b <= a * a) by nra.
  assert (H3 : b * (b * b) <= a * (a * a)) by nra.
  lra.
Qed.

(** The clamped delayed openness [min(1, max(0, q))]. *)
Lemma min_max_cases (q : R) :
  (q <= 0 /\ Rmin 1 (Rmax 0 q) = 0)
  \/ (0 < q < 1 /\ Rmin 1 (Rmax 0 q) = q)
  \/ (1 <= q /\ Rmin 1 (Rmax 0 q) = 1).
Proof.
  destruct (Rle_dec q 0) as [H0|H0].
  - left. split; [exact H0|]. rewrite Rmax_left by exact H0.
    apply Rmin_right. lra.
  - right. rewrite Rmax_right by lra. destruct (Rlt_dec q 1) as [H1|H1].
    + left. split; [lra|]. apply Rmin_right. lra.
    + right. split; [lra|]. apply Rmin_left. lra.
Qed.

Lemma delayed_quotient (o d : R) :
  d < 1 ->
  let q := (o - d) / (1 - d) in
  (q <= 0 <-> o <= d) /\ (1 <= q <-> 1 <= o).
Proof.
  intros Hd q.
  assert (Hpos : 0 < / (1 - d)) by (apply Rinv_0_lt_compat; lra).
  assert (Hq : q * (1 - d) = o - d) by (unfold q; field; lra).
  split; split; intros H; nra.
Qed.

(** In every reachable state, for every delay in [0,1), the explosion
    progress the prism demo computes from the published openness is defined
    and lies in [0,1]; it is 0 exactly while the openness has not passed the
    delay, and 1 exactly when the openness is 1. *)
Theorem explosion_progress_range (st : State) (delay : R) :
  reachable st ->
  0 <= delay < 1 ->
  exists t : R,
    fragmentProgress (getHandOpenness st) delay = Normal t
    /\ 0 <= t <= 1
    /\ (t = 0 <-> getHandOpenness st <= delay)
    /\ (t = 1 <-> getHandOpenness st = 1).
Proof.
  intros Hreach [Hd0 Hd1].
  assert (Ho : 0 <= getHandOpenness st <= 1).
  { destruct (published_is_smoothed st Hreach) as [Hp _].
    unfold getHandOpenness. rewrite Hp.
    assert (Hinv : inUnit (_smoothedOpenness st)
                   /\ inUnit (_targetHandOpenness st)).
    { clear Hp. induction Hreach as [|st e _ IH].
      - unfold inUnit. simpl. lra.
      - apply step_keeps_openness. exact IH. }
    exact (proj1 Hinv). }
  set (o := getHandOpenness st) in *.
  unfold fragmentProgress. rewrite jsdiv_nonzero by lra. cbn [bind].
  eexists. split; [reflexivity|].
  destruct (delayed_quotient o delay Hd1) as [Hq0 Hq1]. cbv zeta in Hq0, Hq1.
  set (q := (o - delay) / (1 - delay)) in *.
  destruct (min_max_cases q) as [[Hc ->]|[[Hc ->]|[Hc ->]]].
  - destruct (easeOutCubic_unit 0) as (Hr & Hz & Hone); [lra|].
    split; [exact Hr|]. split.
    + split; [intros _; apply Hq0; exact Hc | intros _; apply Hz; reflexivity].
    + split; [intros H; apply Hone in H; lra
             | intros H; exfalso; apply Hq0 in Hc; lra].
  - destruct (easeOutCubic_unit q) as (Hr & Hz & Hone); [lra|].
    split; [exact Hr|]. split.
    + split; [intros H; apply Hz in H; lra
             | intros H; apply Hq0 in H; lra].
    + split; [intros H; apply Hone in H; lra
             | intros H; assert (1 <= q) by (apply Hq1; lra); lra].
  - destruct (easeOutCubic_unit 1) as (Hr & Hz & Hone); [lra|].
    split; [exact Hr|]. split.
    + split; [intros H; apply Hz in H; lra
             | intros H; assert (q <= 0) by (apply Hq0; exact H); lra].
    + split; [intros _; apply Hq1 in Hc; lra
             | intros _; apply Hone; reflexivity].
Qed.

(** The explosion progress never decreases when the hand opens: for a delay
    below 1 it is monotone in the openness. *)
Theorem explosion_progress_monotone (o1 o2 delay : R) :
  delay < 1 ->
  o1 <= o2 ->
  exists t1 t2 : R,
    fragmentProgress o1 delay = Normal t1
    /\ fragmentProgress o2 delay = Normal t2
    /\ t1 <= t2.
Proof.
  intros Hd Ho. unfold fragmentProgress.
  rewrite !jsdiv_nonzero by lra. cbn [bind].
  eexists. eexists. split; [reflexivity|]. split; [reflexivity|].
  assert (Hq : (o1 - delay) / (1 - delay) <= (o2 - delay) / (1 - delay)).
  { apply Rmult_le_compat_r; [|lra].
    apply Rlt_le. apply Rinv_0_lt_compat. lra. }
  set (q1 := (o1 - delay) / (1 - delay)) in *.
  set (q2 := (o2 - delay) / (1 - delay)) in *.
  destruct (min_max_cases q1) as [[H1 ->]|[[H1 ->]|[H1 ->]]];
    destruct (min_max_cases q2) as [[H2 ->]|[[H2 ->]|[H2 ->]]];
    try lra; apply easeOutCubic_monotone; lra.
Qed.

Lemma clamp_range (v lo hi : R) : lo <= hi -> lo <= clamp v lo hi <= hi.
Proof.
  intros H. unfold clamp. split.
  - apply Rmax_l.
  - apply Rmax_lub; [exact H | apply Rmin_l].
Qed.

Lemma maxRoll_pos : 0 < maxRoll.
Proof. unfold maxRoll. pose proof PI_RGT_0. lra. Qed.

Lemma maxPitch_pos : 0 < maxPitch.
Proof. unfold maxPitch. pose proof PI_RGT_0. lra. Qed.

Lemma updateFlightControls_withinLimits
      (yxz : Quaternion -> Euler)
      (handRotation : option Quaternion) (detected : bool) (fc : FlightControls) :
  withinLimits fc ->
  withinLimits (updateFlightControls yxz handRotation detected fc).
Proof.
  unfold withinLimits. intros (Htr & Hcr & Htp & Hcp).
  pose proof maxRoll_pos as HR. pose proof maxPitch_pos as HP.
  unfold updateFlightControls.
  destruct detected; [destruct handRotation as [q|]|];
    cbn [targetRoll targetPitch currentRoll currentPitch].
  - pose proof (clamp_range (- ez (yxz q) * rollSensitivity)
                            (- maxRoll) maxRoll) as H1.
    pose proof (clamp_range (ex (yxz q) * pitchSensitivity)
                            (- maxPitch) maxPitch) as H2.
    assert (- maxRoll <= maxRoll) as H1' by lra.
    assert (- maxPitch <= maxPitch) as H2' by lra.
    specialize (H1 H1'). specialize (H2 H2').
    repeat split; lra.
  - repeat split; lra.
  - repeat split; lra.
Qed.

(** Whatever rotations and detection flags [updateFlightControls] is called
    with, and however often, the target and the smoothed roll stay within
    plus or minus PI/3 and the target and the smoothed pitch within plus or
    minus PI/4, starting from level flight. *)
Theorem flight_controls_within_limits
        (yxz : Quaternion -> Euler) (inputs : list (option Quaternion * bool)) :
  let fc := flightRun yxz initialFlightControls inputs in
  (- (PI / 3) <= targetRoll fc <= PI / 3)
  /\ (- (PI / 3) <= currentRoll fc <= PI / 3)
  /\ (- (PI / 4) <= targetPitch fc <= PI / 4)
  /\ (- (PI / 4) <= currentPitch fc <= PI / 4).
Proof.
  cbv zeta. change (withinLimits (flightRun yxz initialFlightControls inputs)).
  assert (H0 : withinLimits initialFlightControls).
  { unfold withinLimits, initialFlightControls.
    cbn [targetRoll targetPitch currentRoll currentPitch].
    pose proof maxRoll_pos. pose proof maxPitch_pos. repeat split; lra. }
  revert H0. generalize initialFlightControls.
  induction inputs as [|i rest IH]; intros fc Hfc.
  - exact Hfc.
  - unfold flightRun. cbn [fold_left]. apply IH.
    apply updateFlightControls_withinLimits. exact Hfc.
Qed.

(** While no hand is detected, or no rotation is available, the targets
    return to level flight geometrically: each call multiplies the target
    roll and pitch by 0.95, whatever they were. *)
Theorem flight_controls_level_off
        (yxz : Quaternion -> Euler)
        (fc : FlightControls) (inputs : list (option Quaternion * bool)) :
  Forall withoutHand inputs ->
  targetRoll (flightRun yxz fc inputs)
  = 0.95 ^ List.length inputs * targetRoll fc
  /\ targetPitch (flightRun yxz fc inputs)
     = 0.95 ^ List.length inputs * targetPitch fc.
Proof.
  revert fc. induction inputs as [|[rotation detected] rest IH]; intros fc Hall.
  - unfold flightRun. simpl. split; ring.
  - inversion Hall as [|i r Hi Hrest]; subst.
    unfold flightRun. cbn [fold_left fst snd].
    fold (flightRun yxz (updateFlightControls yxz rotation detected fc) rest).
    destruct (IH (updateFlightControls yxz rotation detected fc) Hrest) as [Hr Hp].
    rewrite Hr, Hp.
    assert (Ht : targetRoll (updateFlightControls yxz rotation detected fc)
                 = targetRoll fc * 0.95
                 /\ targetPitch (updateFlightControls yxz rotation detected fc)
                    = targetPitch fc * 0.95).
    { unfold updateFlightControls, withoutHand in *. cbn [fst snd] in Hi.
      destruct detected; [destruct rotation|]; cbn; try (split; reflexivity).
      destruct Hi as [Hi|Hi]; discriminate Hi. }
    destruct Ht as [-> ->]. cbn [List.length pow]. split; ring.
Qed.

(** The airplane demo's frame on a reachable module state: the tick
    completes, so the controls are updated; and when no hand is detected, or
    three.js is missing, they take the levelling branch. *)
Theorem animateFlight_levels_without_hand
        (yxz : Quaternion -> Euler) (st : State) (fc : FlightControls) :
  reachable st ->
  isHandDetected st = false \/ THREE_defined = false ->
  let '(outcome, st', fc') := animateFlight yxz st fc in
  outcome = Normal tt
  /\ st' = final (updateHandTracking st)
  /\ targetRoll fc' = targetRoll fc * 0.95
  /\ targetPitch fc' = targetPitch fc * 0.95.
Proof.
  intros Hreach Hno. unfold animateFlight.
  destruct (tick_completes st Hreach) as [Hc _]. rewrite Hc.
  split; [reflexivity|]. split; [reflexivity|].
  unfold updateFlightControls, isHandDetected.
  destruct Hno as [Hd|HT].
  - unfold isHandDetected in Hd. rewrite Hd. split; reflexivity.
  - assert (Hn : getHandRotation (final (updateHandTracking st)) = None).
    { unfold getHandRotation.
      change (final (updateHandTracking st)) with (step st Tick).
      apply step_keeps_rotations_absent; [exact HT|].
      clear Hc. induction Hreach as [|st e _ IH].
      - repeat split.
      - apply step_keeps_rotations_absent; assumption. }
    rewrite Hn. destruct (_isHandDetected st); split; reflexivity.
Qed.

End HandTracking.

(** * The statements at sample inputs

    The quaternion parameters are instantiated by a one-point type: the
    samples below do not look into quaternions. *)

Lemma hand_basis_orthonormal_witness :
  exists b : Basis,
    handBasis uprightHand = Normal b
    /\ orthonormal b
    /\ (true = true ->
        calculateHandRotation true unit (fun _ _ _ => tt) uprightHand
        = Normal (Some tt)).
Proof.
  apply (hand_basis_orthonormal true unit (fun _ _ _ => tt) uprightHand
           (mkLandmark 0.5 0.5 None) (mkLandmark 1 0.5 None)
           (mkLandmark 0 0.5 None) (mkLandmark 0.5 0 None)).
  - reflexivity.
  - reflexivity.
  - reflexivity.
  - reflexivity.
  - unfold subVectors, toVector3, zeroVector. simpl.
    intros H. injection H as Hx Hy Hz. lra.
  - unfold subVectors, toVector3, zeroVector. simpl.
    intros H. injection H as Hx Hy Hz. lra.
  - unfold crossVectors, subVectors, toVector3, zeroVector. simpl.
    intros H. injection H as Hx Hy Hz. lra.
Defined.

Lemma smoothed_openness_in_unit_interval_witness :
  let st := step false unit tt (fun _ _ _ => tt) (fun _ _ _ => tt)
              (step false unit tt (fun _ _ _ => tt) (fun _ _ _ => tt)
                 (initialState unit) (Frame leftHandResults))
              Tick in
  0 <= _smoothedOpenness unit st <= 1
  /\ 0 <= _targetHandOpenness unit st <= 1
  /\ (forall hand o, calculateHandOpenness hand = Normal o -> 0 <= o <= 1)
  /\ _smoothedOpenness unit
       (final unit unit (updateHandTracking unit (fun _ _ _ => tt) st))
     = (1 - SMOOTHING) * _smoothedOpenness unit st
       + SMOOTHING * _targetHandOpenness unit st
  /\ 0 <= SMOOTHING <= 1.
Proof.
  apply (smoothed_openness_in_unit_interval
           false unit tt (fun _ _ _ => tt) (fun _ _ _ => tt)).
  apply reachable_step. apply reachable_step. apply reachable_initial.
Defined.

Lemma smoothing_converges_without_overshoot_witness :
  let st := mkState unit 0 1 0 true "Left" None None None None false None None in
  let t := _targetHandOpenness unit st in
  let s := fun n =>
             _smoothedOpenness unit
               (ticks false unit tt (fun _ _ _ => tt) (fun _ _ _ => tt) n st) in
  0 <= t <= 1
  /\ (forall n, Rabs (t - s (S n)) = (1 - 0.12) * Rabs (t - s n))
  /\ (forall n, s 0%nat <= t -> s n <= t).
Proof.
  intros st t s.
  assert (Ht : 0 <= _targetHandOpenness unit st <= 1) by (simpl; lra).
  split; [exact Ht|].
  destruct (smoothing_converges_without_overshoot
              false unit tt (fun _ _ _ => tt) (fun _ _ _ => tt) st Ht)
    as (_ & Hstep & _ & _ & _ & Hbelow & _).
  split; [exact Hstep | exact Hbelow].
Defined.

Lemma hand_absent_resets_witness :
  let st := mkState unit 0.5 1 0.5 true "Left" None None None
                    (Some spreadHand) false None (Some 1%nat) in
  let r := onHandResults false unit (fun _ _ _ => tt) noHandResults st in
  completion unit unit r = Normal tt
  /\ isHandDetected unit (final unit unit r) = false
  /\ getLandmarks unit (final unit unit r) = None
  /\ getTargetOpenness unit (final unit unit r) = 0
  /\ forall cb, _onHandLost unit st = Some cb
                -> calls unit unit r = [HandLost unit cb].
Proof.
  intros st.
  apply (proj1 (hand_absent_resets false unit (fun _ _ _ => tt)
                                   noHandResults st)).
  right. reflexivity.
Defined.

Lemma hand_update_called_once_witness :
  let st := mkState unit 0.5 0 0.5 false "Right" None None None
                    None false (Some 2%nat) None in
  let r := onHandResults false unit (fun _ _ _ => tt) leftHandResults st in
  completion unit unit r = Normal tt
  /\ calls unit unit r
     = [HandUpdate unit 2%nat (mkSnapshot unit 0.5 None (Some spreadHand))]
  /\ getHandOpenness unit (final unit unit r) = getHandOpenness unit st
  /\ getHandRotation unit (final unit unit r) = getHandRotation unit st
  /\ getLandmarks unit (final unit unit r) = Some spreadHand.
Proof.
  intros st.
  apply (hand_update_called_once false unit (fun _ _ _ => tt)
           leftHandResults spreadHand st 2%nat); reflexivity.
Defined.

Lemma handedness_sticky_witness :
  let st := mkState unit 0.5 1 0.5 true "Left" None None None
                    (Some spreadHand) false None None in
  getHandedness unit
    (run false unit tt (fun _ _ _ => tt) (fun _ _ _ => tt) st
         [Frame noHandResults; Tick; Frame noHandResults; Tick])
  = "Left"%string.
Proof.
  intros st.
  apply (proj2 (handedness_sticky false unit tt (fun _ _ _ => tt)
                                  (fun _ _ _ => tt) st)).
  repeat constructor.
Defined.

(** * Further statements at sample inputs *)

Lemma short_hand_frame_aborts_witness :
  let results := mkResults (Some [firstn 5 spreadHand]) (Some ["Left"%string]) in
  let r := onHandResults false unit (fun _ _ _ => tt) results (initialState unit) in
  completion unit unit r = TypeError
  /\ calls unit unit r = []
  /\ isHandDetected unit (final unit unit r) = true
  /\ getLandmarks unit (final unit unit r) = Some (firstn 5 spreadHand)
  /\ getTargetOpenness unit (final unit unit r) = 0
  /\ _targetHandRotation unit (final unit unit r) = None.
Proof.
  intros results.
  apply (short_hand_frame_aborts false unit (fun _ _ _ => tt) results
           (firstn 5 spreadHand) (initialState unit)).
  - reflexivity.
  - simpl. lia.
Defined.

Lemma rotation_position_and_scale_invariant_witness :
  calculateHandRotation true unit (fun _ _ _ => tt)
    (map (translate 0.1 0.2 0.3) uprightHand)
  = calculateHandRotation true unit (fun _ _ _ => tt) uprightHand
  /\ calculateHandRotation true unit (fun _ _ _ => tt)
       (scaleLandmarks 2 uprightHand)
     = calculateHandRotation true unit (fun _ _ _ => tt) uprightHand.
Proof.
  apply (rotation_position_and_scale_invariant true unit (fun _ _ _ => tt)
           2 0.1 0.2 0.3 uprightHand).
  lra.
Defined.

Lemma coincident_landmarks_give_singular_basis_witness :
  exists b : Basis,
    handBasis spreadHand = Normal b
    /\ handRight b = zeroVector
    /\ handForward b = zeroVector
    /\ ~ orthonormal b.
Proof.
  apply (coincident_landmarks_give_singular_basis spreadHand
           (onAxis 0) (onAxis 0) (onAxis 0) (onAxis 1)).
  - reflexivity.
  - reflexivity.
  - reflexivity.
  - reflexivity.
  - left. reflexivity.
Defined.

Lemma basis_keeps_directions_witness :
  exists b : Basis,
    handBasis uprightHand = Normal b
    /\ 0 < dot (handUp b)
             (subVectors (toVector3 (mkLandmark 0.5 0 None))
                         (toVector3 (mkLandmark 0.5 0.5 None)))
    /\ 0 < dot (handRight b)
             (subVectors (toVector3 (mkLandmark 1 0.5 None))
                         (toVector3 (mkLandmark 0 0.5 None)))
    /\ dot (handForward b)
           (subVectors (toVector3 (mkLandmark 0.5 0 None))
                       (toVector3 (mkLandmark 0.5 0.5 None))) = 0
    /\ dot (handForward b)
           (subVectors (toVector3 (mkLandmark 1 0.5 None))
                       (toVector3 (mkLandmark 0 0.5 None))) = 0.
Proof.
  apply (basis_keeps_directions uprightHand
           (mkLandmark 0.5 0.5 None) (mkLandmark 1 0.5 None)
           (mkLandmark 0 0.5 None) (mkLandmark 0.5 0 None)).
  - reflexivity.
  - reflexivity.
  - reflexivity.
  - reflexivity.
  - unfold subVectors, toVector3, zeroVector. simpl.
    intros H. injection H as Hx Hy Hz. lra.
  - unfold subVectors, toVector3, zeroVector. simpl.
    intros H. injection H as Hx Hy Hz. lra.
  - unfold crossVectors, subVectors, toVector3, zeroVector. simpl.
    intros H. injection H as Hx Hy Hz. lra.
Defined.

Lemma detection_landmarks_target_consistent_witness :
  let st := step true unit tt (fun _ _ _ => tt) (fun _ _ _ => tt)
              (step true unit tt (fun _ _ _ => tt) (fun _ _ _ => tt)
                 (initialState unit) (Frame leftHandResults))
              (Frame noHandResults) in
  (isHandDetected unit st = true <-> getLandmarks unit st <> None)
  /\ (isHandDetected unit st = false -> getTargetOpenness unit st = 0).
Proof.
  apply (detection_landmarks_target_consistent
           true unit tt (fun _ _ _ => tt) (fun _ _ _ => tt)).
  apply reachable_step. apply reachable_step. apply reachable_initial.
Defined.

Lemma published_openness_in_unit_interval_witness :
  let st := step true unit tt (fun _ _ _ => tt) (fun _ _ _ => tt)
              (step true unit tt (fun _ _ _ => tt) (fun _ _ _ => tt)
                 (initialState unit) (Frame leftHandResults))
              Tick in
  getHandOpenness unit st = _smoothedOpenness unit st
  /\ getHandRotation unit st = _smoothedHandRotation unit st
  /\ 0 <= getHandOpenness unit st <= 1.
Proof.
  apply (published_openness_in_unit_interval
           true unit tt (fun _ _ _ => tt) (fun _ _ _ => tt)).
  apply reachable_step. apply reachable_step. apply reachable_initial.
Defined.

Lemma tick_never_raises_witness :
  let st := step true unit tt (fun _ _ _ => tt) (fun _ _ _ => tt)
              (step true unit tt (fun _ _ _ => tt) (fun _ _ _ => tt)
                 (initialState unit) Init)
              (Frame leftHandResults) in
  completion unit unit (updateHandTracking unit (fun _ _ _ => tt) st) = Normal tt
  /\ calls unit unit (updateHandTracking unit (fun _ _ _ => tt) st) = [].
Proof.
  apply (tick_never_raises true unit tt (fun _ _ _ => tt) (fun _ _ _ => tt)).
  apply reachable_step. apply reachable_step. apply reachable_initial.
Defined.

Lemma rotation_null_without_three_witness :
  let st := step false unit tt (fun _ _ _ => tt) (fun _ _ _ => tt)
              (step false unit tt (fun _ _ _ => tt) (fun _ _ _ => tt)
                 (step false unit tt (fun _ _ _ => tt) (fun _ _ _ => tt)
                    (initialState unit) Init)
                 (Frame leftHandResults))
              Tick in
  getHandRotation unit st = None
  /\ _targetHandRotation unit st = None
  /\ _smoothedHandRotation unit st = None.
Proof.
  apply (rotation_null_without_three
           false unit tt (fun _ _ _ => tt) (fun _ _ _ => tt)).
  - reflexivity.
  - apply reachable_step. apply reachable_step. apply reachable_step.
    apply reachable_initial.
Defined.

Lemma published_rotation_stays_witness :
  let st := mkState unit 0 0 0 false "Right" (Some tt) (Some tt) (Some tt)
                    None false None None in
  getHandRotation unit
    (step true unit tt (fun _ _ _ => tt) (fun _ _ _ => tt) st
          (Frame noHandResults))
  <> None.
Proof.
  intros st.
  apply (published_rotation_stays true unit tt (fun _ _ _ => tt)
                                  (fun _ _ _ => tt) st (Frame noHandResults)).
  discriminate.
Defined.

Lemma handedness_follows_label_witness :
  getHandedness unit
    (final unit unit
       (onHandResults false unit (fun _ _ _ => tt) leftHandResults
                      (initialState unit)))
  = "Left"%string.
Proof.
  apply (handedness_follows_label false unit (fun _ _ _ => tt)
           leftHandResults spreadHand "Left" (initialState unit));
    reflexivity.
Defined.

Lemma frame_sets_targets_witness :
  let st' := final unit unit
               (onHandResults true unit (fun _ _ _ => tt) leftHandResults
                              (initialState unit)) in
  calculateHandOpenness spreadHand = Normal (getTargetOpenness unit st')
  /\ 0 <= getTargetOpenness unit st' <= 1
  /\ calculateHandRotation true unit (fun _ _ _ => tt) spreadHand
     = Normal (_targetHandRotation unit st')
  /\ (_targetHandRotation unit st' <> None <-> true = true)
  /\ isHandDetected unit st' = true.
Proof.
  apply (frame_sets_targets true unit (fun _ _ _ => tt)
           leftHandResults spreadHand (initialState unit)); reflexivity.
Defined.

Lemma openness_decays_after_loss_witness :
  let st := mkState unit 0.5 1 0.5 true "Left" None None None
                    (Some spreadHand) false None None in
  let st' := ticks false unit tt (fun _ _ _ => tt) (fun _ _ _ => tt) 3
               (final unit unit
                  (onHandResults false unit (fun _ _ _ => tt) noHandResults st)) in
  _smoothedOpenness unit st' = (1 - 0.12) ^ 3 * 0.5
  /\ ((0 < 3)%nat -> getHandOpenness unit st' = (1 - 0.12) ^ 3 * 0.5).
Proof.
  intros st.
  apply (openness_decays_after_loss false unit tt (fun _ _ _ => tt)
           (fun _ _ _ => tt) noHandResults st 3).
  reflexivity.
Defined.

Lemma explosion_progress_range_witness :
  let st := step false unit tt (fun _ _ _ => tt) (fun _ _ _ => tt)
              (step false unit tt (fun _ _ _ => tt) (fun _ _ _ => tt)
                 (initialState unit) (Frame leftHandResults))
              Tick in
  exists t : R,
    fragmentProgress (getHandOpenness unit st) 0.1 = Normal t
    /\ 0 <= t <= 1
    /\ (t = 0 <-> getHandOpenness unit st <= 0.1)
    /\ (t = 1 <-> getHandOpenness unit st = 1).
Proof.
  apply (explosion_progress_range
           false unit tt (fun _ _ _ => tt) (fun _ _ _ => tt)).
  - apply reachable_step. apply reachable_step. apply reachable_initial.
  - lra.
Defined.

Lemma explosion_progress_monotone_witness :
  exists t1 t2 : R,
    fragmentProgress 0.2 0.1 = Normal t1
    /\ fragmentProgress 0.7 0.1 = Normal t2
    /\ t1 <= t2.
Proof.
  apply (explosion_progress_monotone 0.2 0.7 0.1); lra.
Defined.

Lemma flight_controls_level_off_witness :
  let fc := mkFlightControls 1 0.5 0 0 in
  let inputs := [(None, true); (Some tt, false)] in
  targetRoll (flightRun unit (fun _ => mkEuler 1 1 1) fc inputs)
  = 0.95 ^ 2 * 1
  /\ targetPitch (flightRun unit (fun _ => mkEuler 1 1 1) fc inputs)
     = 0.95 ^ 2 * 0.5.
Proof.
  intros fc inputs.
  apply (flight_controls_level_off unit (fun _ => mkEuler 1 1 1) fc inputs).
  constructor; [right; reflexivity|].
  constructor; [left; reflexivity|].
  constructor.
Defined.

Lemma animateFlight_levels_without_hand_witness :
  let fc := mkFlightControls 1 0.5 0 0 in
  let '(outcome, st', fc') :=
    animateFlight unit (fun _ _ _ => tt) (fun _ => mkEuler 1 1 1)
                  (initialState unit) fc in
  outcome = Normal tt
  /\ st' = final unit unit
             (updateHandTracking unit (fun _ _ _ => tt) (initialState unit))
  /\ targetRoll fc' = targetRoll fc * 0.95
  /\ targetPitch fc' = targetPitch fc * 0.95.
Proof.
  intros fc.
  apply (animateFlight_levels_without_hand
           true unit tt (fun _ _ _ => tt) (fun _ _ _ => tt)
           (fun _ => mkEuler 1 1 1) (initialState unit) fc).
  - apply reachable_initial.
  - left. reflexivity.
Defined.

(** C8, as stated, fails.  The published openness is 0.5 and the published
    orientation is [false] when a frame with [spreadHand] arrives; the
    frame's own measurements are openness 1 and orientation [true], which is
    what it stores as targets, but the update callback is handed 0.5 and
    [false].  (Quaternions are instantiated by the booleans, the conversion
    from a basis returning [true].) *)
Lemma update_snapshot_is_not_the_frame_measurement :
  let st := mkState bool 0.5 0 0.5 false "Right"
                    (Some false) (Some false) (Some false)
                    None false (Some 2%nat) None in
  let r := onHandResults true bool (fun _ _ _ => true) leftHandResults st in
  calculateHandOpenness spreadHand = Normal 1
  /\ calculateHandRotation true bool (fun _ _ _ => true) spreadHand
     = Normal (Some true)
  /\ completion bool unit r = Normal tt
  /\ getTargetOpenness bool (final bool unit r) = 1
  /\ _targetHandRotation bool (final bool unit r) = Some true
  /\ calls bool unit r
     = [HandUpdate bool 2%nat
          (mkSnapshot bool 0.5 (Some false) (Some spreadHand))]
  /\ 0.5 <> 1
  /\ Some false <> Some true.
Proof.
  intros st r.
  assert (Hrot : calculateHandRotation true bool (fun _ _ _ => true) spreadHand
                 = Normal (Some true)) by reflexivity.
  assert (Hr : r = mkRun bool unit (Normal tt)
                     (set_targetHandRotation bool (Some true)
                        (set_targetHandOpenness bool 1
                           (ingested bool leftHandResults spreadHand st)))
                     [HandUpdate bool 2%nat
                        (mkSnapshot bool 0.5 (Some false) (Some spreadHand))]).
  { unfold r.
    rewrite (onHandResults_hand true bool (fun _ _ _ => true)
               leftHandResults spreadHand st eq_refl).
    rewrite (drawHandLandmarks_complete spreadHand eq_refl).
    rewrite openness_spreadHand, Hrot. reflexivity. }
  split; [exact openness_spreadHand|]. split; [exact Hrot|].
  rewrite Hr. split; [reflexivity|]. split; [reflexivity|].
  split; [reflexivity|]. split; [reflexivity|].
  split; [lra | discriminate].
Qed.
